(** * screenshot.js: the showcase-screenshot refresher of portfolio-content

    A shallow embedding of [.github/scripts/screenshot.js] and the
    properties of its state store, project discovery, metadata client and
    orchestrator.

    Conventions of the embedding.
    - The timestamp ledger (the JS object of type [Record<string, string>])
      is a [gmap string string] holding its own properties.  Reading
      [timestamps[project]] is a lookup: a value inherited from
      [Object.prototype] is an object, never a date, and passes no guard.
      Assigning [timestamps[project]] is [assign]: an insert, except that
      assigning a string to [__proto__] on an object that has no own
      property of that name is swallowed by the inherited setter.
    - A path is the list of its segments below [ROOT_DIR]; directory entry
      names never contain a separator, so [path.join] is list append.
    - The file system below [ROOT_DIR] is a tree; [fs] calls fail on it the
      way Node does on the same layout ([readdirSync] of a regular file
      throws, and so does writing a state file that cannot be opened).
      Faults that do not depend on the layout (a full disk) are outside
      the model.
    - The remote API and the headless browser are oracles of the
      environment: a function of the arguments of the call.
    - [JSON.parse], [JSON.stringify] and the parsing done by [new Date] are
      parameters of the development. *)

From Stdlib Require Import ZArith Ascii String.
From stdpp Require Import gmap strings list fin_maps pretty.

Local Open Scope string_scope.

(** ** JavaScript values and exceptions *)

(** The line feed, written ['\n'] in the source. *)
Definition nl : string := String (Ascii.ascii_of_nat 10) EmptyString.

(** A value of type [string | null | undefined] is an [option string];
    it is falsy when it is [null], [undefined] or the empty string. *)
Definition falsy (v : option string) : bool :=
  match v with
  | None => true
  | Some EmptyString => true
  | Some (String _ _) => false
  end.

(** [v || null] *)
Definition or_null (v : option string) : option string :=
  if falsy v then None else v.

(** A call that returns or throws an [Error] with a message. *)
Inductive result (A : Type) : Type :=
| Ok (a : A)
| Raise (message : string).
Arguments Ok {A} a.
Arguments Raise {A} message.

(** ** The file system below ROOT_DIR *)

#[warnings="-register-all"]
Inductive node : Type :=
| File
| Dir (children : list (string * node)).

Definition path : Type := list string.

Record Dirent : Type := { name : string; isDirectory : bool }.

Definition is_dir (n : node) : bool :=
  match n with Dir _ => true | File => false end.

Fixpoint lookup_child (x : string) (children : list (string * node)) : option node :=
  match children with
  | [] => None
  | (y, n) :: rest => if bool_decide (x = y) then Some n else lookup_child x rest
  end.

Fixpoint resolve (children : list (string * node)) (p : path) : option node :=
  match p with
  | [] => Some (Dir children)
  | x :: p' =>
      match lookup_child x children with
      | None => None
      | Some File => match p' with [] => Some File | _ :: _ => None end
      | Some (Dir sub) => resolve sub p'
      end
  end.

Module fs.

(** [fs.existsSync(path.join(ROOT_DIR, ...p))] *)
Definition existsSync (root : list (string * node)) (p : path) : bool :=
  match resolve root p with Some _ => true | None => false end.

(** [fs.readdirSync(path.join(ROOT_DIR, ...p))]: the names in the directory. *)
Definition readdirSync (root : list (string * node)) (p : path) : result (list string) :=
  match resolve root p with
  | Some (Dir children) => Ok (map fst children)
  | Some File => Raise "ENOTDIR: not a directory, scandir"
  | None => Raise "ENOENT: no such file or directory, scandir"
  end.

(** [fs.readdirSync(ROOT_DIR, { withFileTypes: true })] *)
Definition readdirSync_withFileTypes (root : list (string * node)) : list Dirent :=
  map (λ e, {| name := e.1; isDirectory := is_dir e.2 |}) root.

End fs.

(** ** Project discovery *)

(** [Array.prototype.filter] with a callback that may throw. *)
Fixpoint filter_result {A} (f : A → result bool) (l : list A) : result (list A) :=
  match l with
  | [] => Ok []
  | x :: l' =>
      match f x with
      | Raise msg => Raise msg
      | Ok b =>
          match filter_result f l' with
          | Raise msg => Raise msg
          | Ok r => Ok (if b then x :: r else r)
          end
      end
  end.

(** [(f) => f === 'Showcase.png' || f === 'Showcase.webp'] *)
Definition is_showcase (f : string) : bool :=
  bool_decide (f = "Showcase.png") || bool_decide (f = "Showcase.webp").

Definition getProjectFolders (root : list (string * node)) : result (list string) :=
  filter_result
    (λ name,
       let assetsDir := [name; "assets"] in
       if negb (fs.existsSync root assetsDir) then Ok false
       else
         match fs.readdirSync root assetsDir with
         | Raise msg => Raise msg
         | Ok files => Ok (existsb is_showcase files)
         end)
    (map name
       (List.filter (λ entry, isDirectory entry && negb (String.prefix "." (name entry)))
          (fs.readdirSync_withFileTypes root))).

(** The showcase image of a project: [Showcase.png] when it exists. *)
Definition getShowcasePath (root : list (string * node)) (project : string) : path :=
  let assetsDir := [project; "assets"] in
  let pngPath := (assetsDir ++ ["Showcase.png"])%list in
  if fs.existsSync root pngPath then pngPath else (assetsDir ++ ["Showcase.webp"])%list.

(** ** The metadata client *)

(** The shape of the GraphQL response to [REPO_INFO_QUERY]. *)
Record Commit : Type := { c_committedDate : option string }.
Record Ref : Type := { target : option Commit }.
Record Repository : Type :=
  { r_homepageUrl : option string; defaultBranchRef : option Ref }.
Record Response : Type := { repository : option Repository }.

Record RepoInfo : Type :=
  { homepageUrl : option string; committedDate : option string }.

(** [graphql] is the authenticated client: it returns the response or
    rejects (network failure, bad credentials, unknown repository). *)
Definition getRepoInfo (graphql : string → string → result Response)
    (owner name : string) : result RepoInfo :=
  match graphql owner name with
  | Raise msg => Raise msg
  | Ok result =>
      let repo := repository result in
      Ok {| homepageUrl := or_null (repo ≫= r_homepageUrl);
            committedDate :=
              or_null (((repo ≫= defaultBranchRef) ≫= target) ≫= c_committedDate) |}
  end.

(** ** Program state and the monad of the script *)

Inductive line : Type :=
| Log (text : string)       (* console.log *)
| Warn (text : string)      (* console.warn *)
| Error (text : string).    (* console.error *)

(** TIMESTAMPS_FILE on disk. [Unreadable]: the path exists and cannot be
    opened (a file without permissions, a directory); reading it and
    writing it both throw. *)
Inductive TsFile : Type :=
| Missing
| Unreadable
| Content (text : string).

Record State : Type := {
  console : list line;                 (* lines printed so far, oldest first *)
  ts_file : TsFile;
  captured : list (string * path);     (* calls of takeScreenshot *)
  timestamps : gmap string string;     (* the object bound to [timestamps] *)
  screenshotCount : nat;
  timestampOnlyCount : nat;
}.

Inductive outcome (A : Type) : Type :=
| Ret (a : A)
| Throw (message : string)
| Exit (code : nat).                    (* process.exit(code) *)
Arguments Ret {A} a.
Arguments Throw {A} message.
Arguments Exit {A} code.

Definition M (A : Type) : Type := State → outcome A * State.

#[global] Instance M_ret : MRet M := λ A a st, (Ret a, st).
#[global] Instance M_bind : MBind M := λ A B f m st,
  match m st with
  | (Ret a, st') => f a st'
  | (Throw msg, st') => (Throw msg, st')
  | (Exit c, st') => (Exit c, st')
  end.

Definition throw {A} (msg : string) : M A := λ st, (Throw msg, st).
Definition exit {A} (code : nat) : M A := λ st, (Exit code, st).

Definition lift {A} (r : result A) : M A :=
  match r with Ok a => mret a | Raise msg => throw msg end.

(** [try { body } catch (err) { handler(err.message) }] *)
Definition try_catch {A} (body : M A) (handler : string → M A) : M A := λ st,
  match body st with
  | (Throw msg, st') => handler msg st'
  | r => r
  end.

(** [for (const x of l) { body(x) }] *)
Fixpoint for_of {A} (l : list A) (body : A → M unit) : M unit :=
  match l with
  | [] => mret tt
  | x :: l' => body x;; for_of l' body
  end.

Definition gets {A} (f : State → A) : M A := λ st, (Ret (f st), st).
Definition modify (f : State → State) : M unit := λ st, (Ret tt, f st).

Definition print (l : line) : M unit :=
  modify (λ st, {| console := console st ++ [l]; ts_file := ts_file st;
                   captured := captured st; timestamps := timestamps st;
                   screenshotCount := screenshotCount st;
                   timestampOnlyCount := timestampOnlyCount st |}).

Definition set_ts_file (f : TsFile) : M unit :=
  modify (λ st, {| console := console st; ts_file := f;
                   captured := captured st; timestamps := timestamps st;
                   screenshotCount := screenshotCount st;
                   timestampOnlyCount := timestampOnlyCount st |}).

Definition record_capture (url : string) (outputPath : path) : M unit :=
  modify (λ st, {| console := console st; ts_file := ts_file st;
                   captured := captured st ++ [(url, outputPath)];
                   timestamps := timestamps st;
                   screenshotCount := screenshotCount st;
                   timestampOnlyCount := timestampOnlyCount st |}).

Definition set_timestamps (t : gmap string string) : M unit :=
  modify (λ st, {| console := console st; ts_file := ts_file st;
                   captured := captured st; timestamps := t;
                   screenshotCount := screenshotCount st;
                   timestampOnlyCount := timestampOnlyCount st |}).

Definition set_counts (s t : nat) : M unit :=
  modify (λ st, {| console := console st; ts_file := ts_file st;
                   captured := captured st; timestamps := timestamps st;
                   screenshotCount := s; timestampOnlyCount := t |}).

(** ** The environment of a run *)

Record Env : Type := {
  GITHUB_TOKEN : option string;              (* process.env.GITHUB_TOKEN *)
  root : list (string * node);               (* the entries of ROOT_DIR *)
  graphql : string → string → result Response;
  (** The browser session of [takeScreenshot(url, outputPath)]: [None] when
      the page loads and the image is written, [Some msg] when launching,
      navigating or capturing throws. *)
  page : string → path → option string;
}.

Definition REPO_OWNER : string := "tanay-787".

(** [new Date(a) <= new Date(b)] on time values; [None] is the NaN of an
    Invalid Date, and every comparison with NaN is false. *)
Definition date_le (a b : option Z) : bool :=
  match a, b with
  | Some x, Some y => (x <=? y)%Z
  | _, _ => false
  end.

(** [t[key] = value] on an object of string properties.  [__proto__] is
    an accessor of [Object.prototype]: unless the object has an own
    property of that name (as [JSON.parse] creates them), the assignment
    runs the inherited setter, which ignores a string.  Every other name,
    inherited or not, gets an own property. *)
Definition assign (key value : string) (t : gmap string string) : gmap string string :=
  match t !! key with
  | None => if bool_decide (key = "__proto__") then t else <[key := value]> t
  | Some _ => <[key := value]> t
  end.

(** Whether the state file can be written: it is created when missing and
    overwritten when it is a file that can be opened. *)
Definition writable (file : TsFile) : bool :=
  match file with
  | Unreadable => false
  | _ => true
  end.

Section Script.

(** [JSON.parse] on the text of the state file: [None] when it throws. *)
Variable JSON_parse : string → option (gmap string string).
(** [JSON.stringify(_, null, 2)] *)
Variable JSON_stringify : gmap string string → string.
(** The time value of [new Date(s)]: [None] for an Invalid Date. *)
Variable Date_parse : string → option Z.

Variable env : Env.

(** *** The state store *)

Definition existsSync_TIMESTAMPS_FILE : M bool :=
  gets (λ st, match ts_file st with Missing => false | _ => true end).

Definition readFileSync_TIMESTAMPS_FILE : M string := λ st,
  match ts_file st with
  | Content text => (Ret text, st)
  | Unreadable => (Throw "EACCES: permission denied, open", st)
  | Missing => (Throw "ENOENT: no such file or directory, open", st)
  end.

Definition parse (text : string) : M (gmap string string) :=
  match JSON_parse text with
  | Some v => mret v
  | None => throw "SyntaxError: Unexpected token in JSON"
  end.

(** The [return] inside the [try] yields [Some]; falling out of the [if]
    reaches [return {}]. *)
Definition readTimestamps : M (gmap string string) :=
  found ← existsSync_TIMESTAMPS_FILE;
  returned ←
    (if found : bool then
       try_catch
         (text ← readFileSync_TIMESTAMPS_FILE;
          v ← parse text;
          mret (Some v))
         (λ _,
            print (Warn "Warning: could not parse screenshot-timestamps.json; starting fresh.");;
            mret None)
     else mret None);
  match returned with
  | Some v => mret v
  | None => mret ∅
  end.

(** [mkdirSync] with [recursive] leaves an existing directory alone;
    [writeFileSync] throws when the file cannot be opened. *)
Definition writeTimestamps (t : gmap string string) : M unit :=
  writes ← gets (λ st, writable (ts_file st));
  if writes : bool then set_ts_file (Content (JSON_stringify t ++ nl))
  else throw "EACCES: permission denied, open".

(** *** The capturer *)

(** [path.relative(ROOT_DIR, outputPath)] *)
Definition relative (outputPath : path) : string := String.concat "/" outputPath.

(** The call is recorded, then the browser session runs.  Launching,
    the viewport, navigation with its timeout, the encoding chosen from the
    extension, and closing the browser in [finally] all happen inside
    [page]: either the image is written and the line is printed, or the
    error of the failing step is thrown. *)
Definition takeScreenshot (url : string) (outputPath : path) : M unit :=
  record_capture url outputPath;;
  match page env url outputPath with
  | Some msg => throw msg
  | None => print (Log ("  Screenshot saved to: " ++ relative outputPath))
  end.

(** *** The orchestrator *)

(** The body of the loop of [main], with its [try]/[catch]; each
    [continue] ends a branch. *)
Definition process (project : string) : M unit :=
  print (Log ("Processing: " ++ project));;
  try_catch
    (info ← lift (getRepoInfo (graphql env) REPO_OWNER project);
     match committedDate info with
     | None | Some EmptyString =>
         print (Log ("  Skipping: could not determine latest commit date for '"
                     ++ REPO_OWNER ++ "/" ++ project ++ "'."))
     | Some committedDate =>
         lastScreenshot ← gets (λ st, timestamps st !! project);
         if match lastScreenshot with
            | None | Some EmptyString => false
            | Some last => date_le (Date_parse committedDate) (Date_parse last)
            end
         then
           print (Log ("  Up to date (last commit: " ++ committedDate
                       ++ ", last screenshot: " ++ default EmptyString lastScreenshot ++ ")."))
         else
           match homepageUrl info with
           | None | Some EmptyString =>
               print (Log ("  No homepage URL configured for '"
                           ++ REPO_OWNER ++ "/" ++ project ++ "'; skipping screenshot."));;
               t ← gets timestamps;
               set_timestamps (assign project committedDate t);;
               s ← gets screenshotCount;
               n ← gets timestampOnlyCount;
               set_counts s (S n)
           | Some url =>
               print (Log ("  New commits detected. Screenshotting: " ++ url));;
               let outputPath := getShowcasePath (root env) project in
               takeScreenshot url outputPath;;
               t ← gets timestamps;
               set_timestamps (assign project committedDate t);;
               s ← gets screenshotCount;
               n ← gets timestampOnlyCount;
               set_counts (S s) n;;
               print (Log "  Done.")
           end
     end)
    (λ message,
       print (Error ("  Error processing '" ++ project ++ "': " ++ message))).

Definition main : M unit :=
  (if falsy (GITHUB_TOKEN env) then
     print (Error "Error: GITHUB_TOKEN environment variable is required.");;
     exit 1
   else mret tt);;
  t ← readTimestamps;
  set_timestamps t;;
  projects ← lift (getProjectFolders (root env));
  set_counts 0 0;;
  print (Log ("Found " ++ pretty (length projects) ++ " project(s): "
              ++ String.concat ", " projects ++ nl));;
  for_of projects process;;
  t ← gets timestamps;
  writeTimestamps t;;
  s ← gets screenshotCount;
  n ← gets timestampOnlyCount;
  if (0 <? s)%nat || (0 <? n)%nat then
    print (Log (nl ++ "Finished. Screenshots taken: " ++ pretty s
                ++ ". Timestamp-only updates: " ++ pretty n
                ++ ". Timestamps written."))
  else print (Log (nl ++ "Finished. No updates were necessary.")).

(** The state in which the script starts, given the state file on disk. *)
Definition initial (file : TsFile) : State :=
  {| console := []; ts_file := file; captured := []; timestamps := ∅;
     screenshotCount := 0; timestampOnlyCount := 0 |}.

(** [main().catch(...)]: the exit status of the process and its final state. *)
Definition script (file : TsFile) : nat * State :=
  match main (initial file) with
  | (Ret _, st) => (0, st)
  | (Exit code, st) => (code, st)
  | (Throw msg, st) =>
      match print (Error ("Fatal error: " ++ msg)) st with
      | (_, st') => (1, st')
      end
  end.

End Script.

(** ** An instance of the parameters, for running the script on examples

    [iso_time] is [new Date] on timestamps of the form the remote API
    returns, [YYYY-MM-DDTHH:MM:SSZ], and an Invalid Date everywhere else;
    [stringify] and [parse_object] are [JSON.stringify(_, null, 2)] and
    [JSON.parse] on objects whose values are strings (members are printed
    in the order of the map, not in insertion order). *)

Module Instance.

Definition digit (a : ascii) : option Z :=
  let n := Z.of_nat (nat_of_ascii a) in
  if ((48 <=? n) && (n <=? 57))%Z then Some (n - 48)%Z else None.

Fixpoint number (acc : Z) (l : list ascii) : option Z :=
  match l with
  | [] => Some acc
  | a :: l' => d ← digit a; number (10 * acc + d)%Z l'
  end.

(** Days between 1970-01-01 and the given day of the proleptic Gregorian
    calendar. *)
Definition days_from_civil (y m d : Z) : Z :=
  let y' := (if m <=? 2 then y - 1 else y)%Z in
  let era := (y' / 400)%Z in
  let yoe := (y' - era * 400)%Z in
  let doy := ((153 * (if m >? 2 then m - 3 else m + 9) + 2) / 5 + d - 1)%Z in
  let doe := (yoe * 365 + yoe / 4 - yoe / 100 + doy)%Z in
  (era * 146097 + doe - 719468)%Z.

Definition iso_time (s : string) : option Z :=
  match list_ascii_of_string s with
  | [y1; y2; y3; y4; "-"; m1; m2; "-"; d1; d2; "T";
     h1; h2; ":"; i1; i2; ":"; s1; s2; "Z"]%char =>
      y ← number 0 [y1; y2; y3; y4];
      m ← number 0 [m1; m2];
      d ← number 0 [d1; d2];
      h ← number 0 [h1; h2];
      i ← number 0 [i1; i2];
      sec ← number 0 [s1; s2];
      if ((1 <=? m) && (m <=? 12) && (1 <=? d) && (d <=? 31)
          && (h <=? 23) && (i <=? 59) && (sec <=? 59))%Z
      then Some ((((days_from_civil y m d * 24 + h) * 60 + i) * 60 + sec) * 1000)%Z
      else None
  | _ => None
  end.

Definition quote_char : ascii := Ascii.ascii_of_nat 34.
Definition backslash : ascii := Ascii.ascii_of_nat 92.
Definition newline : ascii := Ascii.ascii_of_nat 10.

Fixpoint escape (s : string) : string :=
  match s with
  | EmptyString => EmptyString
  | String a s' =>
      if bool_decide (a = quote_char) then String backslash (String quote_char (escape s'))
      else if bool_decide (a = backslash) then String backslash (String backslash (escape s'))
      else if bool_decide (a = newline) then String backslash (String "n"%char (escape s'))
      else String a (escape s')
  end.

Definition quoted (s : string) : string :=
  String quote_char (escape s ++ String quote_char EmptyString).

Definition stringify (t : gmap string string) : string :=
  match map_to_list t with
  | [] => "{}"
  | members =>
      "{" ++ nl
      ++ String.concat ("," ++ nl)
           (map (λ kv : string * string, "  " ++ quoted kv.1 ++ ": " ++ quoted kv.2) members)
      ++ nl ++ "}"
  end.

Definition is_space (a : ascii) : bool :=
  bool_decide (a = " "%char) || bool_decide (a = newline)
  || bool_decide (a = Ascii.ascii_of_nat 9) || bool_decide (a = Ascii.ascii_of_nat 13).

Fixpoint skip_space (l : list ascii) : list ascii :=
  match l with
  | a :: l' => if is_space a then skip_space l' else l
  | [] => []
  end.

(** The characters of a string literal after its opening quote, and the
    rest of the input after its closing quote. *)
Fixpoint string_body (l : list ascii) : option (string * list ascii) :=
  match l with
  | [] => None
  | a :: l' =>
      if bool_decide (a = quote_char) then Some (EmptyString, l')
      else if bool_decide (a = backslash) then
        match l' with
        | e :: l'' =>
            c ← (if bool_decide (e = quote_char) then Some quote_char
                 else if bool_decide (e = backslash) then Some backslash
                 else if bool_decide (e = "/"%char) then Some "/"%char
                 else if bool_decide (e = "n"%char) then Some newline
                 else if bool_decide (e = "t"%char) then Some (Ascii.ascii_of_nat 9)
                 else if bool_decide (e = "r"%char) then Some (Ascii.ascii_of_nat 13)
                 else None);
            '(s, rest) ← string_body l'';
            Some (String c s, rest)
        | [] => None
        end
      else
        '(s, rest) ← string_body l';
        Some (String a s, rest)
  end.

Definition string_literal (l : list ascii) : option (string * list ascii) :=
  match l with
  | a :: l' => if bool_decide (a = quote_char) then string_body l' else None
  | [] => None
  end.

(** The members of an object after its opening brace; a later member
    overrides an earlier one with the same key. *)
Fixpoint members (fuel : nat) (acc : gmap string string) (l : list ascii)
    : option (gmap string string * list ascii) :=
  match fuel with
  | O => None
  | S fuel' =>
      '(k, l1) ← string_literal (skip_space l);
      match skip_space l1 with
      | ":"%char :: l2 =>
          '(v, l3) ← string_literal (skip_space l2);
          match skip_space l3 with
          | ","%char :: l4 => members fuel' (<[k := v]> acc) l4
          | "}"%char :: l4 => Some (<[k := v]> acc, l4)
          | _ => None
          end
      | _ => None
      end
  end.

Definition parse_object (s : string) : option (gmap string string) :=
  match skip_space (list_ascii_of_string s) with
  | "{"%char :: l =>
      '(t, rest) ←
        match skip_space l with
        | "}"%char :: l' => Some (∅, l')
        | _ => members (String.length s) ∅ l
        end;
      match skip_space rest with
      | [] => Some t
      | _ :: _ => None
      end
  | _ => None
  end.

End Instance.

(** ** Vocabulary of the properties *)

(** A directory that holds [assets] with a showcase image in it. *)
Definition has_showcase_assets (n : node) : bool :=
  match n with
  | Dir children =>
      match lookup_child "assets" children with
      | Some (Dir files) => existsb is_showcase (map fst files)
      | _ => false
      end
  | File => false
  end.

(** The entries of the root that discovery is meant to keep. *)
Definition is_project (e : string * node) : bool :=
  is_dir e.2 && negb (String.prefix "." e.1) && has_showcase_assets e.2.

(** No visible directory of the root has a regular file called [assets]. *)
Definition assets_listable (root : list (string * node)) : bool :=
  forallb
    (λ e : string * node,
       match e.2 with
       | Dir children =>
           String.prefix "." e.1
           || match lookup_child "assets" children with
              | Some File => false
              | _ => true
              end
       | File => true
       end)
    root.

(** The layout of the examples of the specification, and a layout on which
    [assets] is a regular file. *)
Definition example_root : list (string * node) :=
  [ (".git", Dir [("HEAD", File)]);
    ("README.md", File);
    ("proj-a", Dir [("assets", Dir [("Showcase.png", File)])]);
    ("proj-b", Dir [("assets", Dir [("other.png", File)])]) ].

Definition root_with_assets_file : list (string * node) :=
  [ ("proj-a", Dir [("assets", Dir [("Showcase.png", File)])]);
    ("proj-c", Dir [("assets", File)]) ].

(** What the loop does with one project, read off the guards of [main] in
    the order in which they are tested. *)
Inductive decision : Type :=
| FetchFailed (message : string)
| NoCommitDate
| UpToDate
| TimestampOnly (committedDate : string)
| Capture (url committedDate : string).

Section Decisions.

Variable Date_parse : string → option Z.
Variable env : Env.

(** [lastScreenshot && new Date(committedDate) <= new Date(lastScreenshot)] *)
Definition up_to_date (t : gmap string string) (project committedDate : string) : bool :=
  match t !! project with
  | None | Some EmptyString => false
  | Some last => date_le (Date_parse committedDate) (Date_parse last)
  end.

Definition decision_of (t : gmap string string) (project : string) : decision :=
  match getRepoInfo (graphql env) REPO_OWNER project with
  | Raise msg => FetchFailed msg
  | Ok info =>
      match committedDate info with
      | None | Some EmptyString => NoCommitDate
      | Some cd =>
          if up_to_date t project cd then UpToDate
          else
            match homepageUrl info with
            | None | Some EmptyString => TimestampOnly cd
            | Some url => Capture url cd
            end
      end
  end.

Definition ledger_after (d : decision) (t : gmap string string) (project : string)
    : gmap string string :=
  match d with
  | TimestampOnly cd => assign project cd t
  | Capture url cd =>
      match page env url (getShowcasePath (root env) project) with
      | None => assign project cd t
      | Some _ => t
      end
  | _ => t
  end.

Definition captures_by (d : decision) (project : string) : list (string * path) :=
  match d with
  | Capture url _ => [(url, getShowcasePath (root env) project)]
  | _ => []
  end.

Definition counts_after (d : decision) (project : string) (counts : nat * nat) : nat * nat :=
  match d with
  | TimestampOnly _ => (counts.1, S counts.2)
  | Capture url _ =>
      match page env url (getShowcasePath (root env) project) with
      | None => (S counts.1, counts.2)
      | Some _ => counts
      end
  | _ => counts
  end.

(** The ledger, the browser calls and the two counters after the loop has
    gone through a list of projects. *)
Fixpoint ledger_run (t : gmap string string) (projects : list string)
    : gmap string string :=
  match projects with
  | [] => t
  | p :: rest => ledger_run (ledger_after (decision_of t p) t p) rest
  end.

Fixpoint captures_run (t : gmap string string) (projects : list string)
    : list (string * path) :=
  match projects with
  | [] => []
  | p :: rest =>
      (captures_by (decision_of t p) p
       ++ captures_run (ledger_after (decision_of t p) t p) rest)%list
  end.

Fixpoint counts_run (t : gmap string string) (counts : nat * nat)
    (projects : list string) : nat * nat :=
  match projects with
  | [] => counts
  | p :: rest =>
      counts_run (ledger_after (decision_of t p) t p)
        (counts_after (decision_of t p) p counts) rest
  end.

(** A project on which the loop neither captures nor writes the ledger. *)
Definition settled (t : gmap string string) (project : string) : bool :=
  match decision_of t project with
  | FetchFailed _ | NoCommitDate | UpToDate => true
  | _ => false
  end.

End Decisions.

(** The calls of [takeScreenshot] whose output lies in the folder of a
    project. *)
Definition captures_for (project : string) (calls : list (string * path))
    : list (string * path) :=
  List.filter (λ c : string * path, bool_decide (head c.2 = Some project)) calls.

(** The ledger that [readTimestamps] hands to [main]. *)
Definition loaded (JSON_parse : string → option (gmap string string)) (file : TsFile)
    : gmap string string :=
  match file with
  | Content text => default ∅ (JSON_parse text)
  | _ => ∅
  end.

(** The state after the loop body has run on a project. *)
Definition visit Date_parse env (st : State) (project : string) : State :=
  (process Date_parse env project st).2.

(** The same environment with another browser behaviour. *)
Definition with_page (env : Env) (page' : string → path → option string) : Env :=
  {| GITHUB_TOKEN := GITHUB_TOKEN env; root := root env;
     graphql := graphql env; page := page' |}.

(** The fetched commit is newer than the entry of the project: there is no
    entry, or both timestamps are dates and the entry is strictly earlier. *)
Definition newer_than_entry (Date_parse : string → option Z)
    (t : gmap string string) (project committedDate : string) : Prop :=
  t !! project = None ∨
  ∃ last a b,
    t !! project = Some last ∧ Date_parse last = Some a ∧
    Date_parse committedDate = Some b ∧ (a < b)%Z.

(** The commit timestamp fetched for a project, if any, is a date. *)
Definition commit_date_parses (Date_parse : string → option Z) (env : Env)
    (project : string) : Prop :=
  ∀ info cd,
    getRepoInfo (graphql env) REPO_OWNER project = Ok info →
    committedDate info = Some cd → is_Some (Date_parse cd).

(** ** A portfolio to run the script on

    Six projects, one for each way through the loop body, below a root that
    also holds [.git] and a README; the ledger on disk knows two of them
    and a project that is gone. *)

Definition showcase (image : string) : node := Dir [("assets", Dir [(image, File)])].

Definition portfolio_root : list (string * node) :=
  [ (".git", Dir [("HEAD", File)]);
    ("README.md", File);
    ("proj-a", showcase "Showcase.png");
    ("proj-b", showcase "Showcase.png");
    ("proj-c", showcase "Showcase.png");
    ("proj-d", showcase "Showcase.webp");
    ("proj-e", showcase "Showcase.png");
    ("proj-f", showcase "Showcase.png") ].

Definition repo (homepage : option string) (date : option string) : result Response :=
  Ok {| repository :=
          Some {| r_homepageUrl := homepage;
                  defaultBranchRef :=
                    Some {| target := Some {| c_committedDate := date |} |} |} |}.

Definition portfolio_graphql (owner name : string) : result Response :=
  if bool_decide (name = "proj-a") then
    repo (Some "https://example.com") (Some "2024-06-01T00:00:00Z")
  else if bool_decide (name = "proj-b") then
    repo (Some "https://b.example.com") (Some "2024-06-01T00:00:00Z")
  else if bool_decide (name = "proj-c") then
    Ok {| repository := Some {| r_homepageUrl := Some "https://c.example.com";
                                defaultBranchRef := None |} |}
  else if bool_decide (name = "proj-d") then
    repo (Some EmptyString) (Some "2024-03-01T00:00:00Z")
  else if bool_decide (name = "proj-f") then
    repo (Some "https://down.example.com") (Some "2024-05-01T00:00:00Z")
  else Raise "Could not resolve to a Repository".

Definition portfolio_page (url : string) (outputPath : path) : option string :=
  if bool_decide (url = "https://down.example.com")
  then Some "net::ERR_NAME_NOT_RESOLVED"
  else None.

Definition portfolio : Env :=
  {| GITHUB_TOKEN := Some "ghp_token"; root := portfolio_root;
     graphql := portfolio_graphql; page := portfolio_page |}.

Definition portfolio_ledger : gmap string string :=
  <["proj-a" := "2024-01-01T00:00:00Z"]>
    (<["proj-b" := "2024-06-01T00:00:00Z"]>
       (<["old-project" := "2023-01-01T00:00:00Z"]> ∅)).

Definition portfolio_file : TsFile :=
  Content (Instance.stringify portfolio_ledger ++ nl).

Definition portfolio_run : nat * State :=
  script Instance.parse_object Instance.stringify Instance.iso_time portfolio portfolio_file.

Definition portfolio_projects : list string :=
  ["proj-a"; "proj-b"; "proj-c"; "proj-d"; "proj-e"; "proj-f"].

(** The same portfolio with every site up. *)
Definition healthy_portfolio : Env := with_page portfolio (λ _ _, None).

(** ** Two small worlds in which a second run is not idle

    One project with a homepage and no state file.  In the first world the
    site is down; in the second the commit timestamp is not a date. *)

Definition single_root : list (string * node) := [("proj-a", showcase "Showcase.png")].

Definition site_down : Env :=
  {| GITHUB_TOKEN := Some "ghp_token"; root := single_root;
     graphql := λ _ _, repo (Some "https://example.com") (Some "2024-06-01T00:00:00Z");
     page := λ _ _, Some "net::ERR_CONNECTION_REFUSED" |}.

Definition odd_date : Env :=
  {| GITHUB_TOKEN := Some "ghp_token"; root := single_root;
     graphql := λ _ _, repo (Some "https://example.com") (Some "unknown");
     page := λ _ _, None |}.

Definition run_twice (env : Env) (file : TsFile) : (nat * State) * (nat * State) :=
  let first :=
    script Instance.parse_object Instance.stringify Instance.iso_time env file in
  (first,
   script Instance.parse_object Instance.stringify Instance.iso_time env (ts_file first.2)).

(** ** Further vocabulary *)

(** [s.endsWith(suffix)] *)
Fixpoint ends_with (suffix s : string) : bool :=
  String.eqb s suffix
  || match s with
     | EmptyString => false
     | String _ s' => ends_with suffix s'
     end.

(** [outputPath.endsWith('.webp') ? 'webp' : 'png'], the encoding that
    [takeScreenshot] asks the browser for; the test is made on the path as
    a string. *)
Definition imageType (outputPath : path) : string :=
  if ends_with ".webp" (String.concat "/" outputPath) then "webp" else "png".

(** The calls of [takeScreenshot] on which the browser session went through. *)
Definition succeeded (env : Env) (calls : list (string * path)) : list (string * path) :=
  List.filter
    (λ c : string * path, match page env c.1 c.2 with None => true | Some _ => false end)
    calls.

(** The last line that [main] prints. *)
Definition summary (screenshots timestampOnly : nat) : line :=
  if (0 <? screenshots)%nat || (0 <? timestampOnly)%nat then
    Log (nl ++ "Finished. Screenshots taken: " ++ pretty screenshots
         ++ ". Timestamp-only updates: " ++ pretty timestampOnly
         ++ ". Timestamps written.")
  else Log (nl ++ "Finished. No updates were necessary.").

(** The portfolio of the examples with a state file that is not JSON, and
    without a token. *)
Definition corrupt_file : TsFile := Content "{ not json".

Definition portfolio_without_token : Env :=
  {| GITHUB_TOKEN := Some EmptyString; root := portfolio_root;
     graphql := portfolio_graphql; page := portfolio_page |}.

Definition portfolio_unlistable : Env :=
  {| GITHUB_TOKEN := Some "ghp_token"; root := root_with_assets_file;
     graphql := portfolio_graphql; page := portfolio_page |}.

(** What [readTimestamps] prints when the script starts on a state file. *)
Definition load_warning (JSON_parse : string → option (gmap string string))
    (file : TsFile) : list line :=
  match file with
  | Missing => []
  | Unreadable =>
      [Warn "Warning: could not parse screenshot-timestamps.json; starting fresh."]
  | Content text =>
      match JSON_parse text with
      | Some _ => []
      | None =>
          [Warn "Warning: could not parse screenshot-timestamps.json; starting fresh."]
      end
  end.

(** The state in which [main] enters its loop. *)
Definition before_loop (JSON_parse : string → option (gmap string string))
    (file : TsFile) (projects : list string) : State :=
  {| console :=
       (load_warning JSON_parse file
        ++ [Log ("Found " ++ pretty (length projects) ++ " project(s): "
                 ++ String.concat ", " projects ++ nl)])%list;
     ts_file := file; captured := []; timestamps := loaded JSON_parse file;
     screenshotCount := 0; timestampOnlyCount := 0 |}.

(** A ledger whose entry for [proj-a] is not a date. *)
Definition odd_ledger_file : TsFile :=
  Content (Instance.stringify (<["proj-a" := "yesterday"]> ∅) ++ nl).

(** ** A project called [__proto__]

    One project folder of that name, with a showcase image, no state file,
    and a repository with a commit; with a homepage in the first world and
    without one in the second. *)

Definition proto_root : list (string * node) := [("__proto__", showcase "Showcase.png")].

Definition proto_site : Env :=
  {| GITHUB_TOKEN := Some "ghp_token"; root := proto_root;
     graphql := λ _ _, repo (Some "https://example.com") (Some "2024-06-01T00:00:00Z");
     page := λ _ _, None |}.

Definition proto_repo : Env :=
  {| GITHUB_TOKEN := Some "ghp_token"; root := proto_root;
     graphql := λ _ _, repo None (Some "2024-06-01T00:00:00Z");
     page := λ _ _, None |}.

(** * Properties *)

(** ** The metadata client *)

Lemma or_null_Some v s : or_null v = Some s → v = Some s ∧ s ≠ EmptyString.
Proof.
  unfold or_null. destruct v as [[|a r]|]; simpl; intros H; try discriminate.
  inversion H; subst. split; [reflexivity | discriminate].
Qed.

Lemma or_null_None v : or_null v = None ↔ falsy v = true.
Proof. unfold or_null. destruct v as [[|a r]|]; simpl; split; congruence. Qed.

(** C9. Whatever the API answers, [getRepoInfo] returns [homepageUrl = null]
    exactly when the field of the response is falsy (absent, null or the
    empty string), and likewise for [committedDate]; in particular an empty
    configured homepage comes back as null. *)
Theorem getRepoInfo_falsy_is_null graphql owner name (response : Response) :
  graphql owner name = Ok response →
  ∃ info,
    getRepoInfo graphql owner name = Ok info ∧
    (homepageUrl info = None ↔ falsy (repository response ≫= r_homepageUrl) = true) ∧
    (committedDate info = None ↔
       falsy (((repository response ≫= defaultBranchRef) ≫= target) ≫= c_committedDate) = true) ∧
    (repository response ≫= r_homepageUrl = Some EmptyString → homepageUrl info = None) ∧
    (∀ url, homepageUrl info = Some url →
       url ≠ EmptyString ∧ repository response ≫= r_homepageUrl = Some url).
Proof.
  intros Hq. unfold getRepoInfo. rewrite Hq. eexists. split; [reflexivity|]. simpl.
  repeat split.
  - apply or_null_None.
  - apply or_null_None.
  - apply or_null_None.
  - apply or_null_None.
  - intros ->. reflexivity.
  - apply or_null_Some in H. tauto.
  - apply or_null_Some in H. tauto.
Qed.

Lemma getRepoInfo_falsy_is_null_witness :
  ∃ info,
    getRepoInfo
      (λ _ _, Ok {| repository :=
                      Some {| r_homepageUrl := Some EmptyString;
                              defaultBranchRef := Some {| target := Some {| c_committedDate := Some EmptyString |} |} |} |})
      "tanay-787" "proj-a" = Ok info ∧
    homepageUrl info = None ∧ committedDate info = None.
Proof.
  destruct (getRepoInfo_falsy_is_null
              (λ _ _, Ok {| repository :=
                      Some {| r_homepageUrl := Some EmptyString;
                              defaultBranchRef := Some {| target := Some {| c_committedDate := Some EmptyString |} |} |} |})
              "tanay-787" "proj-a" _ eq_refl) as (info & Hi & Hh & Hc & _).
  exists info. split; [exact Hi|]. split; [apply Hh | apply Hc]; reflexivity.
Defined.

(** ** The state store *)

(** C7. [readTimestamps] never throws and never exits: it always returns a
    ledger and leaves the file alone.  The ledger is empty when the file is
    missing (nothing is printed), and empty when the file is there but does
    not parse, after the warning is printed. *)
Theorem readTimestamps_fails_soft JSON_parse (st : State) :
  ∃ t st',
    readTimestamps JSON_parse st = (Ret t, st') ∧
    ts_file st' = ts_file st ∧
    (ts_file st = Missing → t = ∅ ∧ st' = st) ∧
    (∀ text, ts_file st = Content text → JSON_parse text = None →
       t = ∅ ∧
       console st' = (console st
         ++ [Warn "Warning: could not parse screenshot-timestamps.json; starting fresh."])%list) ∧
    (∀ text v, ts_file st = Content text → JSON_parse text = Some v →
       t = v ∧ st' = st).
Proof.
  unfold readTimestamps, existsSync_TIMESTAMPS_FILE, readFileSync_TIMESTAMPS_FILE,
    parse, try_catch, gets, print, modify, throw, mbind, M_bind, mret, M_ret.
  destruct st as [c f k t n m]; simpl.
  destruct f as [| |text]; simpl.
  - do 2 eexists. repeat split; intros; congruence.
  - do 2 eexists. repeat split; intros; congruence.
  - destruct (JSON_parse text) as [v|] eqn:Hp; simpl.
    + do 2 eexists. split; [reflexivity|]. split; [reflexivity|].
      split; [discriminate|]. split.
      * intros text' [= <-]; congruence.
      * intros text' v' [= <-] Hv. rewrite Hp in Hv. inversion Hv. auto.
    + do 2 eexists. split; [reflexivity|]. split; [reflexivity|].
      split; [discriminate|]. split.
      * intros. auto.
      * intros text' v' [= <-] Hv. congruence.
Qed.

Lemma readTimestamps_fails_soft_witness :
  ∃ st',
    readTimestamps Instance.parse_object
      {| console := []; ts_file := Content "{ not json"; captured := [];
         timestamps := ∅; screenshotCount := 0; timestampOnlyCount := 0 |}
    = (Ret ∅, st') ∧
    console st' = [Warn "Warning: could not parse screenshot-timestamps.json; starting fresh."].
Proof.
  destruct (readTimestamps_fails_soft Instance.parse_object
              {| console := []; ts_file := Content "{ not json"; captured := [];
                 timestamps := ∅; screenshotCount := 0; timestampOnlyCount := 0 |})
    as (t & st' & Hr & _ & _ & Hbad & _).
  destruct (Hbad "{ not json" eq_refl) as [-> Hc]; [vm_compute; reflexivity|].
  exists st'. split; [exact Hr | exact Hc].
Defined.

(** ** Project discovery *)

Lemma lookup_child_NoDup (root : list (string * node)) x n :
  NoDup (map fst root) → (x, n) ∈ root → lookup_child x root = Some n.
Proof.
  induction root as [|[y m] root IH]; simpl; intros Hnd Hin.
  - inversion Hin.
  - apply NoDup_cons in Hnd as [Hy Hnd].
    apply elem_of_cons in Hin as [[= -> ->]|Hin].
    + rewrite bool_decide_eq_true_2; reflexivity.
    + rewrite bool_decide_eq_false_2; [auto|].
      intros ->. apply Hy. apply list_elem_of_fmap. exists (y, n). auto.
Qed.

(** What the callback of the second [filter] answers on a visible
    directory whose [assets], if any, is a directory. *)
Lemma assets_check root x children :
  lookup_child x root = Some (Dir children) →
  lookup_child "assets" children ≠ Some File →
  (if negb (fs.existsSync root [x; "assets"]) then Ok false
   else match fs.readdirSync root [x; "assets"] with
        | Raise msg => Raise msg
        | Ok files => Ok (existsb is_showcase files)
        end) = Ok (has_showcase_assets (Dir children)).
Proof.
  intros Hx Hf. unfold fs.existsSync, fs.readdirSync. simpl. rewrite Hx.
  destruct (lookup_child "assets" children) as [[|files]|]; simpl; congruence.
Qed.

Lemma discovery_on_sublist root (l : list (string * node)) :
  (∀ x n, (x, n) ∈ l → lookup_child x root = Some n) →
  (∀ x children, (x, Dir children) ∈ l → String.prefix "." x = false →
     lookup_child "assets" children ≠ Some File) →
  filter_result
    (λ name,
       let assetsDir := [name; "assets"] in
       if negb (fs.existsSync root assetsDir) then Ok false
       else
         match fs.readdirSync root assetsDir with
         | Raise msg => Raise msg
         | Ok files => Ok (existsb is_showcase files)
         end)
    (map name
       (List.filter (λ entry, isDirectory entry && negb (String.prefix "." (name entry)))
          (fs.readdirSync_withFileTypes l)))
  = Ok (map fst (List.filter is_project l)).
Proof.
  induction l as [|[x n] l IH]; intros Hlk Hls; [reflexivity|].
  assert (IH' := IH (λ y m Hy, Hlk y m (list_elem_of_further _ _ _ Hy))
                    (λ y c Hy, Hls y c (list_elem_of_further _ _ _ Hy))).
  clear IH. unfold fs.readdirSync_withFileTypes in *. simpl.
  unfold is_project at 1. simpl.
  destruct n as [|children]; simpl; [exact IH'|].
  destruct (String.prefix "." x) eqn:Hp; simpl; [exact IH'|].
  cbv zeta in IH'. rewrite IH'.
  pose proof (assets_check root x children (Hlk _ _ (list_elem_of_here _ _))
                (Hls _ _ (list_elem_of_here _ _) Hp)) as Hc.
  cbv zeta. rewrite Hc. unfold has_showcase_assets.
  destruct (lookup_child "assets" children) as [[|files]|]; try reflexivity.
  destruct (existsb is_showcase (map fst files)); reflexivity.
Qed.

Lemma assets_listable_elim root x children :
  assets_listable root = true →
  (x, Dir children) ∈ root → String.prefix "." x = false →
  lookup_child "assets" children ≠ Some File.
Proof.
  unfold assets_listable. rewrite forallb_forall. intros Hall Hin Hp Ha.
  specialize (Hall _ (proj1 (list_elem_of_In _ _) Hin)). simpl in Hall.
  rewrite Hp, Ha in Hall. discriminate.
Qed.

Lemma getProjectFolders_listable root :
  NoDup (map fst root) → assets_listable root = true →
  getProjectFolders root = Ok (map fst (List.filter is_project root)).
Proof.
  intros Hnd Hls. unfold getProjectFolders. apply discovery_on_sublist.
  - intros x n Hin. by apply lookup_child_NoDup.
  - intros x children. by apply assets_listable_elim.
Qed.

(** Discovery on a root whose entries have distinct names and where no
    visible directory holds a regular file called [assets]: it returns, in
    enumeration order, exactly the entries that are directories, do not
    start with a dot and have a directory [assets] with an entry called
    [Showcase.png] or [Showcase.webp]; [.git] is never kept, and neither is
    a project whose [assets] holds only [other.png]. *)
Theorem getProjectFolders_keeps_projects (root : list (string * node)) :
  NoDup (map fst root) → assets_listable root = true →
  ∃ projects,
    getProjectFolders root = Ok projects ∧
    projects = map fst (List.filter is_project root) ∧
    (∀ x, x ∈ projects ↔
       ∃ children files,
         (x, Dir children) ∈ root ∧ String.prefix "." x = false ∧
         lookup_child "assets" children = Some (Dir files) ∧
         ∃ f, f ∈ map fst files ∧ (f = "Showcase.png" ∨ f = "Showcase.webp")) ∧
    (".git" ∉ projects) ∧
    (∀ x, (x, Dir [("assets", Dir [("other.png", File)])]) ∈ root → x ∉ projects).
Proof.
  intros Hnd Hls. eexists. split; [by apply getProjectFolders_listable|].
  split; [reflexivity|].
  assert (Hiff : ∀ x, x ∈ map fst (List.filter is_project root) ↔
       ∃ children files,
         (x, Dir children) ∈ root ∧ String.prefix "." x = false ∧
         lookup_child "assets" children = Some (Dir files) ∧
         ∃ f, f ∈ map fst files ∧ (f = "Showcase.png" ∨ f = "Showcase.webp")).
  { intros x. rewrite list_elem_of_fmap. split.
    - intros ([y n] & -> & Hin). apply list_elem_of_In, filter_In in Hin as [Hin Hp].
      apply list_elem_of_In in Hin. unfold is_project in Hp. simpl in *.
      destruct n as [|children]; [discriminate|]. simpl in Hp.
      destruct (String.prefix "." y) eqn:Hy; [discriminate|]. simpl in Hp.
      destruct (lookup_child "assets" children) as [[|files]|] eqn:Ha; try discriminate.
      apply existsb_exists in Hp as (f & Hf & Hs).
      exists children, files. repeat split; auto.
      exists f. split; [by apply list_elem_of_In|].
      unfold is_showcase in Hs. apply orb_true_iff in Hs as [Hs|Hs];
        apply bool_decide_eq_true_1 in Hs; auto.
    - intros (children & files & Hin & Hy & Ha & f & Hf & Hs).
      exists (x, Dir children). split; [reflexivity|].
      apply list_elem_of_In, filter_In. split; [by apply list_elem_of_In|].
      unfold is_project. simpl. rewrite Hy, Ha. simpl.
      apply existsb_exists. exists f. split; [by apply list_elem_of_In|].
      unfold is_showcase. destruct Hs as [-> | ->]; reflexivity. }
  split; [exact Hiff|]. split.
  - rewrite Hiff. intros (? & ? & _ & Hp & _). discriminate.
  - intros x Hin. rewrite Hiff. intros (children & files & Hin' & _ & Ha & f & Hf & Hs).
    pose proof (lookup_child_NoDup _ _ _ Hnd Hin) as H1.
    pose proof (lookup_child_NoDup _ _ _ Hnd Hin') as H2.
    rewrite H1 in H2. inversion H2; subst. simpl in Ha. inversion Ha; subst.
    simpl in Hf. apply list_elem_of_singleton in Hf. subst f.
    destruct Hs; discriminate.
Qed.

Lemma example_root_NoDup : NoDup (map fst example_root).
Proof. apply (bool_decide_unpack _). vm_compute. reflexivity. Qed.

Lemma getProjectFolders_keeps_projects_witness :
  getProjectFolders example_root = Ok ["proj-a"].
Proof.
  destruct (getProjectFolders_keeps_projects example_root example_root_NoDup)
    as (projects & Hp & -> & _); [vm_compute; reflexivity|].
  exact Hp.
Defined.

(** C8 on a root where [proj-c/assets] is a regular file: [proj-a] is a
    visible directory whose [assets] holds [Showcase.png], so discovery
    should keep it and leave [proj-c] out, as it leaves out the entries of
    the root that are not directories; instead the [readdirSync] of
    [proj-c/assets] throws out of [getProjectFolders] and no list is
    returned. *)
Lemma getProjectFolders_assets_file_raises :
  is_project ("proj-a", Dir [("assets", Dir [("Showcase.png", File)])]) = true ∧
  ("proj-a", Dir [("assets", Dir [("Showcase.png", File)])]) ∈ root_with_assets_file ∧
  NoDup (map fst root_with_assets_file) ∧
  getProjectFolders root_with_assets_file = Raise "ENOTDIR: not a directory, scandir" ∧
  ¬ ∃ projects, getProjectFolders root_with_assets_file = Ok projects ∧ "proj-a" ∈ projects.
Proof.
  split; [reflexivity|]. split; [apply list_elem_of_here|].
  split; [apply (bool_decide_unpack _); vm_compute; reflexivity|].
  split; [reflexivity|]. intros (projects & H & _). discriminate.
Qed.

(** ** Assignment to the ledger *)

Lemma assign_other key value (t : gmap string string) q :
  q ≠ key → assign key value t !! q = t !! q.
Proof.
  intros Hne. unfold assign.
  destruct (t !! key); [by rewrite lookup_insert_ne|].
  destruct (bool_decide (key = "__proto__")); [reflexivity|].
  by rewrite lookup_insert_ne.
Qed.

Lemma assign_insert key value (t : gmap string string) :
  key ≠ "__proto__" ∨ is_Some (t !! key) →
  assign key value t = <[key := value]> t.
Proof.
  unfold assign. intros [Hne|[v Hv]].
  - destruct (t !! key); [reflexivity|]. by rewrite bool_decide_eq_false_2.
  - by rewrite Hv.
Qed.

(** The entry after an assignment: the value, or nothing at all when the
    assignment was to [__proto__] on a ledger without that entry. *)
Lemma assign_lookup key value (t : gmap string string) :
  assign key value t !! key = Some value ∨
  key = "__proto__" ∧ t !! key = None ∧ assign key value t = t.
Proof.
  unfold assign. destruct (t !! key) eqn:Hk; [left; apply lookup_insert_eq|].
  destruct (decide (key = "__proto__")) as [->|Hne].
  - right. by rewrite bool_decide_eq_true_2.
  - left. rewrite bool_decide_eq_false_2 by done. apply lookup_insert_eq.
Qed.

Lemma assign_ext key value (t t' : gmap string string) :
  t !! key = t' !! key → assign key value t !! key = assign key value t' !! key.
Proof.
  intros H. unfold assign. rewrite <- H.
  destruct (t !! key) eqn:Hk; [by rewrite !lookup_insert_eq|].
  destruct (bool_decide (key = "__proto__")); [congruence|].
  by rewrite !lookup_insert_eq.
Qed.

(** ** The loop body *)

Lemma getRepoInfo_truthy graphql owner name info :
  getRepoInfo graphql owner name = Ok info →
  falsy (homepageUrl info) = false ∨ homepageUrl info = None.
Proof.
  unfold getRepoInfo. destruct (graphql owner name); [|discriminate].
  intros [= <-]. simpl. unfold or_null.
  destruct (falsy (repository a ≫= r_homepageUrl)) eqn:E; auto.
Qed.

Section Loop.

Variable Date_parse : string → option Z.
Variable env : Env.

Local Abbreviation process := (process Date_parse env).
Local Abbreviation visit := (visit Date_parse env).
Local Abbreviation decision_of := (decision_of Date_parse env).
Local Abbreviation ledger_after := (ledger_after env).
Local Abbreviation captures_by := (captures_by env).
Local Abbreviation counts_after := (counts_after env).

Ltac run_monad :=
  unfold takeScreenshot, lift, try_catch, gets, print, record_capture,
    set_timestamps, set_counts, modify, throw, mbind, M_bind, mret, M_ret;
  simpl.

Ltac close_branch :=
  repeat split; simpl; rewrite ?app_nil_r, <- ?app_assoc; simpl;
  try reflexivity; try (eexists; reflexivity).

(** The loop body always completes: whatever is thrown inside it is caught,
    and it never ends the process.  Its effect on the ledger, on the
    browser and on the counters is the one of the decision taken. *)
Lemma process_visit project st :
  process project st = (Ret tt, visit st project) ∧
  ts_file (visit st project) = ts_file st ∧
  timestamps (visit st project)
    = ledger_after (decision_of (timestamps st) project) (timestamps st) project ∧
  captured (visit st project)
    = (captured st ++ captures_by (decision_of (timestamps st) project) project)%list ∧
  (screenshotCount (visit st project), timestampOnlyCount (visit st project))
    = counts_after (decision_of (timestamps st) project) project
        (screenshotCount st, timestampOnlyCount st) ∧
  ∃ rest, console (visit st project)
          = (console st ++ Log ("Processing: " ++ project) :: rest)%list.
Proof.
  unfold visit, process, decision_of, up_to_date,
    ledger_after, captures_by, counts_after.
  destruct st as [c f k t s n].
  destruct (getRepoInfo (graphql env) REPO_OWNER project) as [info|msg] eqn:Hinfo;
    run_monad; [|close_branch].
  destruct (committedDate info) as [[|a cd]|]; run_monad; [close_branch| |close_branch].
  destruct (t !! project) as [[|b last]|] eqn:Hlast; simpl.
  - destruct (homepageUrl info) as [[|u url]|]; run_monad; [close_branch| |close_branch].
    destruct (page env (String u url) (getShowcasePath (root env) project));
      run_monad; close_branch.
  - destruct (date_le (Date_parse (String a cd)) (Date_parse (String b last)));
      run_monad; [close_branch|].
    destruct (homepageUrl info) as [[|u url]|]; run_monad; [close_branch| |close_branch].
    destruct (page env (String u url) (getShowcasePath (root env) project));
      run_monad; close_branch.
  - destruct (homepageUrl info) as [[|u url]|]; run_monad; [close_branch| |close_branch].
    destruct (page env (String u url) (getShowcasePath (root env) project));
      run_monad; close_branch.
Qed.

Local Abbreviation ledger_run := (ledger_run Date_parse env).
Local Abbreviation captures_run := (captures_run Date_parse env).
Local Abbreviation counts_run := (counts_run Date_parse env).

(** The loop visits every project in turn and completes. *)
Lemma for_of_process projects st :
  for_of projects process st = (Ret tt, foldl visit st projects).
Proof.
  revert st. induction projects as [|p rest IH]; intros st; [reflexivity|].
  simpl. unfold mbind, M_bind.
  destruct (process_visit p st) as [-> _]. apply IH.
Qed.

Lemma foldl_visit projects st :
  ts_file (foldl visit st projects) = ts_file st ∧
  timestamps (foldl visit st projects) = ledger_run (timestamps st) projects ∧
  captured (foldl visit st projects)
    = (captured st ++ captures_run (timestamps st) projects)%list ∧
  (screenshotCount (foldl visit st projects), timestampOnlyCount (foldl visit st projects))
    = counts_run (timestamps st) (screenshotCount st, timestampOnlyCount st) projects ∧
  (∀ l, l ∈ console st → l ∈ console (foldl visit st projects)) ∧
  (∀ q, q ∈ projects → Log ("Processing: " ++ q) ∈ console (foldl visit st projects)).
Proof.
  revert st. induction projects as [|p rest IH]; intros st; simpl.
  - rewrite app_nil_r. repeat split; auto. intros q Hq. inversion Hq.
  - destruct (process_visit p st) as (_ & Hf & Ht & Hc & Hn & (more & Hl)).
    destruct (IH (visit st p)) as (IHf & IHt & IHc & IHn & IHk & IHp).
    rewrite IHf, IHt, IHc, IHn, Hf, Ht, Hc, Hn, <- app_assoc.
    repeat split; auto.
    + intros l Hin. apply IHk. rewrite Hl. apply elem_of_app. auto.
    + intros q Hq. apply elem_of_cons in Hq as [->|Hq]; [|auto].
      apply IHk. rewrite Hl. apply elem_of_app. right. apply list_elem_of_here.
Qed.

(** *** The decision depends on the entry of the project only *)

Lemma decision_of_ext t t' p :
  t !! p = t' !! p → decision_of t p = decision_of t' p.
Proof.
  intros H. unfold decision_of, up_to_date. rewrite H. reflexivity.
Qed.

Lemma ledger_after_other d t p q :
  q ≠ p → ledger_after d t p !! q = t !! q.
Proof.
  intros Hne. unfold ledger_after.
  destruct d; try reflexivity.
  - by apply assign_other.
  - destruct (page env url _); [reflexivity|]. by apply assign_other.
Qed.

Lemma ledger_after_ext d t t' p :
  t !! p = t' !! p → ledger_after d t p !! p = ledger_after d t' p !! p.
Proof.
  intros H. unfold ledger_after.
  destruct d; try exact H.
  - by apply assign_ext.
  - destruct (page env url _); [exact H|]. by apply assign_ext.
Qed.

Lemma ledger_run_other t projects q :
  q ∉ projects → ledger_run t projects !! q = t !! q.
Proof.
  revert t. induction projects as [|p rest IH]; intros t Hq; [reflexivity|].
  simpl. apply not_elem_of_cons in Hq as [Hne Hq].
  rewrite IH by exact Hq. by apply ledger_after_other.
Qed.

Lemma head_getShowcasePath p : head (getShowcasePath (root env) p) = Some p.
Proof. unfold getShowcasePath. destruct (fs.existsSync _ _); reflexivity. Qed.

Lemma captures_for_by d p q :
  captures_for p (captures_by d q) = if bool_decide (q = p) then captures_by d q else [].
Proof.
  unfold captures_for, captures_by.
  destruct d; simpl; try (by destruct (bool_decide (q = p))).
  rewrite head_getShowcasePath.
  destruct (decide (q = p)) as [->|Hne].
  - rewrite !bool_decide_eq_true_2; done.
  - rewrite !bool_decide_eq_false_2; congruence.
Qed.

Lemma captures_for_app p l1 l2 :
  captures_for p (l1 ++ l2) = (captures_for p l1 ++ captures_for p l2)%list.
Proof. apply List.filter_app. Qed.

Lemma captures_run_other t projects p :
  p ∉ projects → captures_for p (captures_run t projects) = [].
Proof.
  revert t. induction projects as [|q rest IH]; intros t Hp; [reflexivity|].
  simpl. apply not_elem_of_cons in Hp as [Hne Hp].
  rewrite captures_for_app, IH by exact Hp.
  rewrite captures_for_by, bool_decide_eq_false_2 by congruence. reflexivity.
Qed.

(** A project listed once is decided on the ledger as loaded, and nothing
    else in the run touches its entry or captures into its folder. *)
Lemma run_project t projects p :
  NoDup projects → p ∈ projects →
  ledger_run t projects !! p = ledger_after (decision_of t p) t p !! p ∧
  captures_for p (captures_run t projects) = captures_by (decision_of t p) p.
Proof.
  revert t. induction projects as [|q rest IH]; intros t Hnd Hin; [inversion Hin|].
  apply NoDup_cons in Hnd as [Hq Hnd]. simpl. rewrite captures_for_app, captures_for_by.
  destruct (decide (q = p)) as [->|Hne].
  - rewrite bool_decide_eq_true_2 by done.
    rewrite ledger_run_other, captures_run_other by exact Hq.
    by rewrite app_nil_r.
  - rewrite bool_decide_eq_false_2 by done.
    apply elem_of_cons in Hin as [->|Hin]; [done|].
    destruct (IH (ledger_after (decision_of t q) t q) Hnd Hin) as [-> ->].
    assert (Hsame : ledger_after (decision_of t q) t q !! p = t !! p)
      by (apply ledger_after_other; congruence).
    rewrite (decision_of_ext _ t p Hsame). split; [|reflexivity].
    by apply ledger_after_ext.
Qed.

End Loop.

(** ** The run as a whole *)

Section Run.

Variable JSON_parse : string → option (gmap string string).
Variable JSON_stringify : gmap string string → string.
Variable Date_parse : string → option Z.
Variable env : Env.

Local Abbreviation main := (main JSON_parse JSON_stringify Date_parse env).
Local Abbreviation script := (script JSON_parse JSON_stringify Date_parse env).
Local Abbreviation loaded := (loaded JSON_parse).
Local Abbreviation ledger_run := (ledger_run Date_parse env).
Local Abbreviation captures_run := (captures_run Date_parse env).
Local Abbreviation counts_run := (counts_run Date_parse env).

(** Loading hands over [loaded] and changes nothing but the console. *)
Lemma readTimestamps_loaded st :
  ∃ lines,
    readTimestamps JSON_parse st
    = (Ret (loaded (ts_file st)),
       {| console := lines; ts_file := ts_file st; captured := captured st;
          timestamps := timestamps st; screenshotCount := screenshotCount st;
          timestampOnlyCount := timestampOnlyCount st |}).
Proof.
  unfold readTimestamps, existsSync_TIMESTAMPS_FILE, readFileSync_TIMESTAMPS_FILE,
    parse, try_catch, gets, print, modify, throw, mbind, M_bind, mret, M_ret.
  destruct st as [c f k t n m]; simpl.
  destruct f as [| |text]; simpl; try (eexists; reflexivity).
  destruct (JSON_parse text); simpl; eexists; reflexivity.
Qed.

(** With a token and a root that can be scanned, [main] goes through the
    loop on every discovered project, starting from the loaded ledger, and
    then writes the resulting ledger: it returns when the state file can be
    written, and throws the error of the write otherwise. *)
Lemma main_completes file projects :
  falsy (GITHUB_TOKEN env) = false →
  getProjectFolders (root env) = Ok projects →
  ∃ st,
    main (initial file)
    = (if writable file then Ret tt else Throw "EACCES: permission denied, open", st) ∧
    timestamps st = ledger_run (loaded file) projects ∧
    captured st = captures_run (loaded file) projects ∧
    (screenshotCount st, timestampOnlyCount st) = counts_run (loaded file) (0, 0) projects ∧
    ts_file st
    = (if writable file then Content (JSON_stringify (timestamps st) ++ nl) else file) ∧
    (∀ q, q ∈ projects → Log ("Processing: " ++ q) ∈ console st).
Proof.
  intros Htok Hscan. unfold main. rewrite Htok, Hscan.
  destruct (readTimestamps_loaded (initial file)) as [lines Hread].
  unfold mbind at 1 2. unfold M_bind at 1 2. simpl. rewrite Hread.
  unfold set_timestamps, set_counts, print, writeTimestamps, set_ts_file, lift,
    gets, modify, throw, mbind, M_bind, mret, M_ret. simpl.
  rewrite for_of_process.
  match goal with |- context [foldl _ ?s projects] => set (st0 := s) end.
  destruct (foldl_visit Date_parse env projects st0) as (Hf & Ht & Hc & Hn & _ & Hp).
  simpl in Hf, Ht, Hc, Hn. rewrite Hf.
  destruct (writable file); simpl.
  - destruct ((0 <? screenshotCount (foldl (visit Date_parse env) st0 projects))%nat
              || (0 <? timestampOnlyCount (foldl (visit Date_parse env) st0 projects))%nat);
      eexists; (split; [reflexivity|]); simpl; rewrite ?Ht, ?Hc, ?Hn;
      repeat split; auto;
      try (intros q Hq; apply elem_of_app; left; auto).
  - eexists. split; [reflexivity|]. rewrite ?Ht, ?Hc, ?Hn, ?Hf. repeat split; auto.
Qed.

Lemma script_completes file projects :
  falsy (GITHUB_TOKEN env) = false →
  getProjectFolders (root env) = Ok projects →
  ∃ st,
    script file = (if writable file then 0 else 1, st) ∧
    timestamps st = ledger_run (loaded file) projects ∧
    captured st = captures_run (loaded file) projects ∧
    (screenshotCount st, timestampOnlyCount st) = counts_run (loaded file) (0, 0) projects ∧
    ts_file st
    = (if writable file then Content (JSON_stringify (timestamps st) ++ nl) else file) ∧
    (∀ q, q ∈ projects → Log ("Processing: " ++ q) ∈ console st).
Proof.
  intros Htok Hscan.
  destruct (main_completes file projects Htok Hscan) as (st & Hm & Ht & Hc & Hn & Hf & Hp).
  unfold script. rewrite Hm. destruct (writable file).
  - exists st. repeat split; auto.
  - eexists. split; [reflexivity|]. simpl. repeat split; auto.
    intros q Hq. apply elem_of_app. left. auto.
Qed.

(** Without a token the process exits with status 1 before anything is
    read, fetched, captured or written. *)
Lemma script_without_token file :
  falsy (GITHUB_TOKEN env) = true →
  script file
  = (1, {| console := [Error "Error: GITHUB_TOKEN environment variable is required."];
           ts_file := file; captured := []; timestamps := ∅;
           screenshotCount := 0; timestampOnlyCount := 0 |}).
Proof.
  intros Htok. unfold script, main. rewrite Htok. reflexivity.
Qed.

(** When scanning the root throws, the error escapes [main]: status 1, no
    capture, and the state file is not written. *)
Lemma script_scan_raises file msg :
  falsy (GITHUB_TOKEN env) = false →
  getProjectFolders (root env) = Raise msg →
  ∃ st,
    script file = (1, st) ∧ ts_file st = file ∧ captured st = [] ∧
    timestamps st = loaded file ∧ screenshotCount st = 0 ∧ timestampOnlyCount st = 0.
Proof.
  intros Htok Hscan. unfold script, main. rewrite Htok, Hscan.
  destruct (readTimestamps_loaded (initial file)) as [lines Hread].
  unfold mbind at 1 2. unfold M_bind at 1 2. simpl. rewrite Hread.
  unfold set_timestamps, print, lift, throw, modify, mbind, M_bind. simpl.
  eexists. split; [reflexivity|]. simpl. auto.
Qed.

End Run.

(** *** Discovered projects are listed once *)

Lemma filter_result_sublist {A} (f : A → result bool) l r :
  filter_result f l = Ok r → sublist r l.
Proof.
  revert r. induction l as [|x l IH]; simpl; intros r H.
  - inversion H. constructor.
  - destruct (f x) as [b|]; [|discriminate].
    destruct (filter_result f l) as [r'|]; [|discriminate].
    inversion H; subst. destruct b; [apply sublist_skip | apply sublist_cons]; auto.
Qed.

Lemma getProjectFolders_NoDup root projects :
  NoDup (map fst root) → getProjectFolders root = Ok projects → NoDup projects.
Proof.
  intros Hnd H. apply filter_result_sublist in H.
  refine (sublist_NoDup _ _ _ H).
  unfold fs.readdirSync_withFileTypes.
  refine (sublist_NoDup _ _ Hnd _).
  clear. induction root as [|[x n] root IH]; simpl; [constructor|].
  destruct (is_dir n && negb (String.prefix "." x)); simpl;
    [apply sublist_skip | apply sublist_cons]; exact IH.
Qed.

(** ** The orchestrator, project by project *)

Lemma getRepoInfo_fields graphql owner name info :
  getRepoInfo graphql owner name = Ok info →
  (∀ s, homepageUrl info = Some s → s ≠ EmptyString) ∧
  (∀ s, committedDate info = Some s → s ≠ EmptyString).
Proof.
  unfold getRepoInfo. destruct (graphql owner name) as [response|]; [|discriminate].
  intros [= <-]. simpl. split; intros s Hs; apply or_null_Some in Hs; tauto.
Qed.

Section Decide.

Variable Date_parse : string → option Z.
Variable env : Env.

Local Abbreviation decision_of := (decision_of Date_parse env).

Lemma newer_not_up_to_date t p cd :
  newer_than_entry Date_parse t p cd → up_to_date Date_parse t p cd = false.
Proof.
  unfold up_to_date. intros [-> | (last & a & b & -> & Ha & Hb & Hlt)]; [reflexivity|].
  destruct last; [reflexivity|]. rewrite Ha, Hb. simpl. lia.
Qed.

Lemma decision_capture t p info url cd :
  getRepoInfo (graphql env) REPO_OWNER p = Ok info →
  homepageUrl info = Some url → committedDate info = Some cd →
  newer_than_entry Date_parse t p cd →
  decision_of t p = Capture url cd.
Proof.
  intros Hinfo Hu Hc Hnew. destruct (getRepoInfo_fields _ _ _ _ Hinfo) as [Hu' Hc'].
  specialize (Hu' _ Hu). specialize (Hc' _ Hc).
  unfold decision_of. rewrite Hinfo, Hc, Hu.
  destruct cd; [done|]. rewrite newer_not_up_to_date by exact Hnew.
  destruct url; done.
Qed.

Lemma decision_timestamp_only t p info cd :
  getRepoInfo (graphql env) REPO_OWNER p = Ok info →
  homepageUrl info = None → committedDate info = Some cd →
  newer_than_entry Date_parse t p cd →
  decision_of t p = TimestampOnly cd.
Proof.
  intros Hinfo Hu Hc Hnew. destruct (getRepoInfo_fields _ _ _ _ Hinfo) as [_ Hc'].
  specialize (Hc' _ Hc).
  unfold decision_of. rewrite Hinfo, Hc, Hu.
  destruct cd; [done|]. by rewrite newer_not_up_to_date.
Qed.

Lemma decision_up_to_date t p info cd last a b :
  Date_parse EmptyString = None →
  getRepoInfo (graphql env) REPO_OWNER p = Ok info →
  committedDate info = Some cd →
  t !! p = Some last → Date_parse last = Some a → Date_parse cd = Some b → (b ≤ a)%Z →
  decision_of t p = UpToDate.
Proof.
  intros Hempty Hinfo Hc Hlast Ha Hb Hle.
  unfold decision_of, up_to_date. rewrite Hinfo, Hc, Hlast.
  destruct cd; [congruence|]. destruct last; [congruence|].
  rewrite Ha, Hb. simpl. rewrite (proj2 (Z.leb_le b a) Hle). reflexivity.
Qed.

Lemma decision_no_commit_date t p info :
  getRepoInfo (graphql env) REPO_OWNER p = Ok info →
  committedDate info = None →
  decision_of t p = NoCommitDate.
Proof.
  intros Hinfo Hc. unfold decision_of. by rewrite Hinfo, Hc.
Qed.



End Decide.

Section Orchestrator.

Variable JSON_parse : string → option (gmap string string).
Variable JSON_stringify : gmap string string → string.
Variable Date_parse : string → option Z.
Variable env : Env.
Variable file : TsFile.
Variable projects : list string.

Hypothesis token_set : falsy (GITHUB_TOKEN env) = false.
Hypothesis distinct_names : NoDup (map fst (root env)).
Hypothesis discovered : getProjectFolders (root env) = Ok projects.

Local Abbreviation script := (script JSON_parse JSON_stringify Date_parse env).
Local Abbreviation loaded := (loaded JSON_parse).
Local Abbreviation decision_of := (decision_of Date_parse env).

(** The final state of a run, for a project that is listed: its entry and
    the captures into its folder are those of its own decision. *)
Lemma script_project p :
  p ∈ projects →
  (script file).1 = (if writable file then 0 else 1) ∧
  timestamps (script file).2 !! p
    = ledger_after env (decision_of (loaded file) p) (loaded file) p !! p ∧
  captures_for p (captured (script file).2) = captures_by env (decision_of (loaded file) p) p ∧
  ts_file (script file).2
    = (if writable file
       then Content (JSON_stringify (timestamps (script file).2) ++ nl) else file) ∧
  (∀ q, q ∈ projects → Log ("Processing: " ++ q) ∈ console (script file).2).
Proof.
  intros Hp.
  destruct (script_completes JSON_parse JSON_stringify Date_parse env file projects
              token_set discovered) as (st & -> & Ht & Hc & _ & Hf & Hl).
  simpl. rewrite Ht, Hc.
  destruct (run_project Date_parse env (loaded file) projects p
              (getProjectFolders_NoDup _ _ distinct_names discovered) Hp) as [-> ->].
  rewrite <- Ht. repeat split; auto.
Qed.

(** A ledger that holds an entry was read from a file, which can be
    written back. *)
Lemma loaded_entry_writable k v :
  loaded file !! k = Some v → writable file = true.
Proof. destruct file; simpl; [by rewrite lookup_empty..|reflexivity]. Qed.

(** X17. A discovered project whose fetched commit is newer than its ledger
    entry (or that has no entry) and whose fetched homepage is not null:
    the run calls [takeScreenshot] into the folder of the project exactly
    once, with that homepage and the resolved showcase path.  When the
    capture succeeds, and the project is not a [__proto__] without an
    entry, the entry of the project is the fetched commit timestamp, in
    memory and, when the state file can be written, in the file. *)
Theorem newer_commit_with_homepage_is_captured p info url cd :
  p ∈ projects →
  getRepoInfo (graphql env) REPO_OWNER p = Ok info →
  homepageUrl info = Some url →
  committedDate info = Some cd →
  newer_than_entry Date_parse (loaded file) p cd →
  captures_for p (captured (script file).2) = [(url, getShowcasePath (root env) p)] ∧
  (page env url (getShowcasePath (root env) p) = None →
   p ≠ "__proto__" ∨ is_Some (loaded file !! p) →
   timestamps (script file).2 !! p = Some cd ∧
   (writable file = true →
    ts_file (script file).2 = Content (JSON_stringify (timestamps (script file).2) ++ nl))).
Proof.
  intros Hp Hinfo Hu Hc Hnew.
  destruct (script_project p Hp) as (_ & Ht & Hk & Hf & _).
  rewrite (decision_capture Date_parse env _ _ _ _ _ Hinfo Hu Hc Hnew) in Ht, Hk.
  split; [exact Hk|]. intros Hpage Hown. simpl in Ht. rewrite Hpage in Ht.
  rewrite (assign_insert _ _ _ Hown), lookup_insert_eq in Ht.
  split; [exact Ht|]. intros Hw. by rewrite Hw in Hf.
Qed.

(** C2. A discovered project whose ledger entry, as a date, is later than
    or equal to the fetched commit timestamp: no capture into its folder,
    and its entry is the one that was loaded. *)
Theorem up_to_date_project_is_left_alone p info cd last a b :
  Date_parse EmptyString = None →
  p ∈ projects →
  getRepoInfo (graphql env) REPO_OWNER p = Ok info →
  committedDate info = Some cd →
  loaded file !! p = Some last →
  Date_parse last = Some a → Date_parse cd = Some b → (b ≤ a)%Z →
  captures_for p (captured (script file).2) = [] ∧
  timestamps (script file).2 !! p = Some last.
Proof.
  intros Hempty Hp Hinfo Hc Hlast Ha Hb Hle.
  destruct (script_project p Hp) as (_ & Ht & Hk & _).
  rewrite (decision_up_to_date Date_parse env _ _ _ _ _ _ _
             Hempty Hinfo Hc Hlast Ha Hb Hle) in Ht, Hk.
  split; [exact Hk|]. rewrite Ht. exact Hlast.
Qed.

(** C4. A discovered project whose fetched commit timestamp is null: no
    capture into its folder and its entry is the one that was loaded,
    whatever the homepage. *)
Theorem null_commit_date_is_skipped p info :
  p ∈ projects →
  getRepoInfo (graphql env) REPO_OWNER p = Ok info →
  committedDate info = None →
  captures_for p (captured (script file).2) = [] ∧
  timestamps (script file).2 !! p = loaded file !! p.
Proof.
  intros Hp Hinfo Hc.
  destruct (script_project p Hp) as (_ & Ht & Hk & _).
  rewrite (decision_no_commit_date Date_parse env _ _ _ Hinfo Hc) in Ht, Hk.
  auto.
Qed.

(** X18. A discovered project whose fetched commit is newer than its ledger
    entry (or that has no entry) and whose fetched homepage is null:
    nothing is captured into its folder and, unless it is a [__proto__]
    without an entry, its entry becomes the fetched commit timestamp. *)
Theorem newer_commit_without_homepage_is_recorded p info cd :
  p ∈ projects →
  getRepoInfo (graphql env) REPO_OWNER p = Ok info →
  homepageUrl info = None →
  committedDate info = Some cd →
  newer_than_entry Date_parse (loaded file) p cd →
  captures_for p (captured (script file).2) = [] ∧
  (p ≠ "__proto__" ∨ is_Some (loaded file !! p) →
   timestamps (script file).2 !! p = Some cd).
Proof.
  intros Hp Hinfo Hu Hc Hnew.
  destruct (script_project p Hp) as (_ & Ht & Hk & _).
  rewrite (decision_timestamp_only Date_parse env _ _ _ _ Hinfo Hu Hc Hnew) in Ht, Hk.
  split; [exact Hk|]. intros Hown. rewrite Ht. simpl.
  rewrite (assign_insert _ _ _ Hown). apply lookup_insert_eq.
Qed.


(** C10. An entry of the loaded ledger whose name is not a discovered
    project is still there, unchanged, in the ledger that the run writes to
    the state file. *)
Theorem stale_entries_are_preserved k v :
  k ∉ projects →
  loaded file !! k = Some v →
  timestamps (script file).2 !! k = Some v ∧
  ts_file (script file).2 = Content (JSON_stringify (timestamps (script file).2) ++ nl).
Proof.
  intros Hk Hv.
  destruct (script_completes JSON_parse JSON_stringify Date_parse env file projects
              token_set discovered) as (st & -> & Ht & _ & _ & Hf & _).
  rewrite (loaded_entry_writable _ _ Hv) in Hf.
  simpl. split; [|exact Hf]. rewrite Ht, ledger_run_other by exact Hk. exact Hv.
Qed.

End Orchestrator.

(** ** Two runs in a row *)

Section Idempotence.

Variable Date_parse : string → option Z.
Variable env : Env.

Local Abbreviation decision_of := (decision_of Date_parse env).
Local Abbreviation settled := (settled Date_parse env).
Local Abbreviation ledger_run := (ledger_run Date_parse env).
Local Abbreviation captures_run := (captures_run Date_parse env).

Local Abbreviation commit_date_parses := (commit_date_parses Date_parse env).

Lemma settled_idle t p :
  settled t p = true →
  ledger_after env (decision_of t p) t p = t ∧
  captures_by env (decision_of t p) p = [] ∧
  ∀ counts, counts_after env (decision_of t p) p counts = counts.
Proof.
  unfold settled. destruct (decision_of t p); simpl; try discriminate; auto.
Qed.

Lemma settled_ext t t' p :
  t !! p = t' !! p → settled t p = settled t' p.
Proof.
  intros H. unfold settled. by rewrite (decision_of_ext _ _ t t' p H).
Qed.

(** After the loop body has run on a project, with its capture (if any)
    succeeding, the project is settled. *)
Lemma visit_settles t p :
  p ≠ "__proto__" →
  commit_date_parses p →
  (∀ url out, (url, out) ∈ captures_by env (decision_of t p) p → page env url out = None) →
  settled (ledger_after env (decision_of t p) t p) p = true.
Proof.
  intros Hname Hdate Hcap.
  assert (Hnew : ∀ cd, is_Some (Date_parse cd) → cd ≠ EmptyString →
                       up_to_date Date_parse (assign p cd t) p cd = true).
  { intros cd [b Hb] Hne. unfold up_to_date.
    rewrite assign_insert by (by left). rewrite lookup_insert_eq.
    destruct cd; [done|]. rewrite Hb. simpl. apply Z.leb_refl. }
  unfold settled, decision_of in *.
  unfold commit_date_parses in Hdate.
  destruct (getRepoInfo (graphql env) REPO_OWNER p) as [info|msg] eqn:Hinfo; [|done].
  specialize (Hdate info).
  destruct (committedDate info) as [[|c cd]|] eqn:Hc; try done.
  specialize (Hdate _ eq_refl eq_refl).
  destruct (up_to_date Date_parse t p (String c cd)) eqn:Hup; simpl.
  { by rewrite Hup. }
  destruct (homepageUrl info) as [[|u url]|]; simpl.
  - by rewrite Hnew.
  - rewrite (Hcap (String u url) (getShowcasePath (root env) p)) by apply list_elem_of_here.
    by rewrite Hnew.
  - by rewrite Hnew.
Qed.

Lemma visit_keeps_settled t p q :
  settled t p = true →
  settled (ledger_after env (decision_of t q) t q) p = true.
Proof.
  intros Hs. destruct (decide (q = p)) as [->|Hne].
  - destruct (settled_idle t p Hs) as [-> _]. exact Hs.
  - rewrite <- Hs. apply settled_ext. apply ledger_after_other. congruence.
Qed.

Lemma run_settles projects t p :
  "__proto__" ∉ projects →
  (∀ q, q ∈ projects → commit_date_parses q) →
  (∀ url out, (url, out) ∈ captures_run t projects → page env url out = None) →
  p ∈ projects ∨ settled t p = true →
  settled (ledger_run t projects) p = true.
Proof.
  intros Hnone. revert t.
  induction projects as [|q rest IH]; intros t Hdate Hcap Hp; simpl.
  - destruct Hp as [Hp|Hp]; [inversion Hp | exact Hp].
  - apply not_elem_of_cons in Hnone as [Hq Hnone].
    simpl in Hcap. apply IH.
    + exact Hnone.
    + intros r Hr. apply Hdate. by apply list_elem_of_further.
    + intros url out Hin. apply Hcap. apply elem_of_app. by right.
    + destruct Hp as [Hp|Hp].
      * apply elem_of_cons in Hp as [->|Hp]; [right | by left].
        apply visit_settles; [congruence | apply Hdate, list_elem_of_here|].
        intros url out Hin. apply Hcap. apply elem_of_app. by left.
      * right. by apply visit_keeps_settled.
Qed.

End Idempotence.

(** The browser plays no part in the decision. *)
Lemma settled_with_page Date_parse env page' t p :
  settled Date_parse (with_page env page') t p = settled Date_parse env t p.
Proof. reflexivity. Qed.

Lemma idle_run Date_parse env projects t counts :
  (∀ p, p ∈ projects → settled Date_parse env t p = true) →
  ledger_run Date_parse env t projects = t ∧
  captures_run Date_parse env t projects = [] ∧
  counts_run Date_parse env t counts projects = counts.
Proof.
  induction projects as [|q rest IH]; intros Hs; simpl; [auto|].
  destruct (settled_idle Date_parse env t q (Hs q (list_elem_of_here _ _)))
    as (-> & -> & ->).
  apply IH. intros p Hp. apply Hs. by apply list_elem_of_further.
Qed.

(** C3 (amended). Two runs in a row on the same root with the same fetched
    metadata, the first one writing the state file and the second one
    reading it: when every capture of the first run succeeded, every commit
    timestamp fetched for a discovered project is a date, and no discovered
    project is called [__proto__], the second run calls [takeScreenshot]
    not at all, assigns no ledger entry (both counters stay at 0), and ends
    with the ledger and the state file of the first run. *)
Theorem second_run_is_idle JSON_parse JSON_stringify Date_parse env page' file projects :
  falsy (GITHUB_TOKEN env) = false →
  getProjectFolders (root env) = Ok projects →
  writable file = true →
  "__proto__" ∉ projects →
  (∀ p, p ∈ projects → commit_date_parses Date_parse env p) →
  (∀ url out,
     (url, out) ∈ captured (script JSON_parse JSON_stringify Date_parse env file).2 →
     page env url out = None) →
  JSON_parse
    (JSON_stringify (timestamps (script JSON_parse JSON_stringify Date_parse env file).2) ++ nl)
  = Some (timestamps (script JSON_parse JSON_stringify Date_parse env file).2) →
  ∀ first second,
    first = script JSON_parse JSON_stringify Date_parse env file →
    second = script JSON_parse JSON_stringify Date_parse (with_page env page') (ts_file first.2) →
    first.1 = 0 ∧
    captured second.2 = [] ∧
    screenshotCount second.2 = 0 ∧ timestampOnlyCount second.2 = 0 ∧
    timestamps second.2 = timestamps first.2 ∧
    ts_file second.2 = ts_file first.2 ∧
    second.1 = 0.
Proof.
  intros Htok Hscan Hw Hnone Hdate Hcap Hround first second -> ->.
  destruct (script_completes JSON_parse JSON_stringify Date_parse env file projects
              Htok Hscan) as (st1 & E1 & Ht1 & Hc1 & _ & Hf1 & _).
  rewrite E1 in *. rewrite Hw in *. simpl in *.
  destruct (script_completes JSON_parse JSON_stringify Date_parse (with_page env page')
              (ts_file st1) projects Htok Hscan) as (st2 & -> & Ht2 & Hc2 & Hn2 & Hf2 & _).
  rewrite Hf1 in Hf2 |- *. simpl in Hf2 |- *. rewrite <- Hf1 in *.
  assert (Hload : loaded JSON_parse (ts_file st1) = timestamps st1).
  { rewrite Hf1. simpl. by rewrite Hround. }
  rewrite Hload in Ht2, Hc2, Hn2.
  assert (Hs : ∀ p, p ∈ projects →
                 settled Date_parse (with_page env page') (timestamps st1) p = true).
  { intros p Hp. rewrite settled_with_page, Ht1.
    apply run_settles; [exact Hnone | exact Hdate| |by left].
    intros url out Hin. apply Hcap. by rewrite Hc1. }
  destruct (idle_run Date_parse (with_page env page') projects (timestamps st1) (0, 0) Hs)
    as (Hl & Hk & Hz).
  rewrite Hl in Ht2. rewrite Hk in Hc2. rewrite Hz in Hn2.
  inversion Hn2. rewrite Hf2, Ht2. repeat split; auto.
Qed.

(** C3 as stated fails.  With the site of the only project down, the first
    run captures and fails, and the second run, on the same root and the
    same metadata, captures again.  With a commit timestamp that is not a
    date, the first run captures and records it, and the second run
    captures and counts a screenshot again. *)
Lemma second_run_captures_again :
  (captured (run_twice site_down Missing).1.2
     = [("https://example.com", ["proj-a"; "assets"; "Showcase.png"])] ∧
   captured (run_twice site_down Missing).2.2
     = [("https://example.com", ["proj-a"; "assets"; "Showcase.png"])]) ∧
  (timestamps (run_twice odd_date Missing).1.2 !! "proj-a" = Some "unknown" ∧
   captured (run_twice odd_date Missing).2.2
     = [("https://example.com", ["proj-a"; "assets"; "Showcase.png"])] ∧
   screenshotCount (run_twice odd_date Missing).2.2 = 1).
Proof. vm_compute. repeat split. Qed.

(** C1 on a project called [__proto__]: the project is discovered, its
    commit is newer than its (absent) entry, its homepage is not null, the
    capture is made and succeeds, and yet the run ends without an entry for
    it, in memory and in the state file it writes, although it counts a
    screenshot; the next run therefore captures again. *)
Lemma proto_capture_is_not_recorded :
  getProjectFolders (root proto_site) = Ok ["__proto__"] ∧
  getRepoInfo (graphql proto_site) REPO_OWNER "__proto__"
    = Ok {| homepageUrl := Some "https://example.com";
            committedDate := Some "2024-06-01T00:00:00Z" |} ∧
  loaded Instance.parse_object Missing !! "__proto__" = None ∧
  captured (run_twice proto_site Missing).1.2
    = [("https://example.com", ["__proto__"; "assets"; "Showcase.png"])] ∧
  page proto_site "https://example.com" ["__proto__"; "assets"; "Showcase.png"] = None ∧
  screenshotCount (run_twice proto_site Missing).1.2 = 1 ∧
  timestamps (run_twice proto_site Missing).1.2 !! "__proto__" = None ∧
  ts_file (run_twice proto_site Missing).1.2 = Content ("{}" ++ nl) ∧
  captured (run_twice proto_site Missing).2.2
    = [("https://example.com", ["__proto__"; "assets"; "Showcase.png"])].
Proof. vm_compute. repeat split. Qed.

(** C5 on a project called [__proto__]: the project is discovered, its
    commit is newer than its (absent) entry and its homepage is null; the
    run counts a timestamp-only update and yet ends without an entry for
    the project, in memory and in the state file it writes. *)
Lemma proto_commit_is_not_recorded :
  getProjectFolders (root proto_repo) = Ok ["__proto__"] ∧
  getRepoInfo (graphql proto_repo) REPO_OWNER "__proto__"
    = Ok {| homepageUrl := None; committedDate := Some "2024-06-01T00:00:00Z" |} ∧
  loaded Instance.parse_object Missing !! "__proto__" = None ∧
  captured (run_twice proto_repo Missing).1.2 = [] ∧
  timestampOnlyCount (run_twice proto_repo Missing).1.2 = 1 ∧
  timestamps (run_twice proto_repo Missing).1.2 !! "__proto__" = None ∧
  ts_file (run_twice proto_repo Missing).1.2 = Content ("{}" ++ nl) ∧
  timestampOnlyCount (run_twice proto_repo Missing).2.2 = 1.
Proof. vm_compute. repeat split. Qed.

(** ** The properties on the portfolio *)

Lemma portfolio_distinct_names : NoDup (map fst (root portfolio)).
Proof. apply (bool_decide_unpack _). vm_compute. reflexivity. Qed.

Lemma portfolio_discovered : getProjectFolders (root portfolio) = Ok portfolio_projects.
Proof. vm_compute. reflexivity. Qed.

Lemma portfolio_has p : bool_decide (p ∈ portfolio_projects) = true → p ∈ portfolio_projects.
Proof. apply bool_decide_eq_true_1. Qed.

Lemma newer_commit_with_homepage_is_captured_witness :
  captures_for "proj-a" (captured portfolio_run.2)
    = [("https://example.com", ["proj-a"; "assets"; "Showcase.png"])] ∧
  timestamps portfolio_run.2 !! "proj-a" = Some "2024-06-01T00:00:00Z".
Proof.
  destruct (newer_commit_with_homepage_is_captured
              Instance.parse_object Instance.stringify Instance.iso_time
              portfolio portfolio_file portfolio_projects
              eq_refl portfolio_distinct_names portfolio_discovered
              "proj-a"
              {| homepageUrl := Some "https://example.com";
                 committedDate := Some "2024-06-01T00:00:00Z" |}
              "https://example.com" "2024-06-01T00:00:00Z")
    as [Hcap Hledger].
  - apply portfolio_has. vm_compute. reflexivity.
  - vm_compute. reflexivity.
  - reflexivity.
  - reflexivity.
  - right. exists "2024-01-01T00:00:00Z", 1704067200000%Z, 1717200000000%Z.
    repeat split; vm_compute; reflexivity.
  - split; [exact Hcap|]. apply Hledger; [vm_compute; reflexivity|].
    left. discriminate.
Defined.

Lemma up_to_date_project_is_left_alone_witness :
  captures_for "proj-b" (captured portfolio_run.2) = [] ∧
  timestamps portfolio_run.2 !! "proj-b" = Some "2024-06-01T00:00:00Z".
Proof.
  apply (up_to_date_project_is_left_alone
           Instance.parse_object Instance.stringify Instance.iso_time
           portfolio portfolio_file portfolio_projects
           eq_refl portfolio_distinct_names portfolio_discovered
           "proj-b"
           {| homepageUrl := Some "https://b.example.com";
              committedDate := Some "2024-06-01T00:00:00Z" |}
           "2024-06-01T00:00:00Z" "2024-06-01T00:00:00Z"
           1717200000000%Z 1717200000000%Z).
  - reflexivity.
  - apply portfolio_has. vm_compute. reflexivity.
  - vm_compute. reflexivity.
  - reflexivity.
  - vm_compute. reflexivity.
  - vm_compute. reflexivity.
  - vm_compute. reflexivity.
  - lia.
Defined.

Lemma null_commit_date_is_skipped_witness :
  captures_for "proj-c" (captured portfolio_run.2) = [] ∧
  timestamps portfolio_run.2 !! "proj-c" = loaded Instance.parse_object portfolio_file !! "proj-c".
Proof.
  apply (null_commit_date_is_skipped
           Instance.parse_object Instance.stringify Instance.iso_time
           portfolio portfolio_file portfolio_projects
           eq_refl portfolio_distinct_names portfolio_discovered
           "proj-c"
           {| homepageUrl := Some "https://c.example.com"; committedDate := None |}).
  - apply portfolio_has. vm_compute. reflexivity.
  - vm_compute. reflexivity.
  - reflexivity.
Defined.

Lemma newer_commit_without_homepage_is_recorded_witness :
  timestamps portfolio_run.2 !! "proj-d" = Some "2024-03-01T00:00:00Z" ∧
  captures_for "proj-d" (captured portfolio_run.2) = [].
Proof.
  destruct (newer_commit_without_homepage_is_recorded
              Instance.parse_object Instance.stringify Instance.iso_time
              portfolio portfolio_file portfolio_projects
              eq_refl portfolio_distinct_names portfolio_discovered
              "proj-d"
              {| homepageUrl := None; committedDate := Some "2024-03-01T00:00:00Z" |}
              "2024-03-01T00:00:00Z") as [Hcap Hledger].
  - apply portfolio_has. vm_compute. reflexivity.
  - vm_compute. reflexivity.
  - reflexivity.
  - reflexivity.
  - left. vm_compute. reflexivity.
  - split; [|exact Hcap]. apply Hledger. left. discriminate.
Defined.


Lemma stale_entries_are_preserved_witness :
  timestamps portfolio_run.2 !! "old-project" = Some "2023-01-01T00:00:00Z" ∧
  ts_file portfolio_run.2 = Content (Instance.stringify (timestamps portfolio_run.2) ++ nl).
Proof.
  apply (stale_entries_are_preserved
           Instance.parse_object Instance.stringify Instance.iso_time
           portfolio portfolio_file portfolio_projects
           eq_refl portfolio_discovered
           "old-project" "2023-01-01T00:00:00Z").
  - apply (bool_decide_unpack _). vm_compute. reflexivity.
  - vm_compute. reflexivity.
Defined.

Lemma healthy_portfolio_dates p :
  p ∈ portfolio_projects → commit_date_parses Instance.iso_time healthy_portfolio p.
Proof.
  intros Hp info cd Hinfo Hcd. unfold portfolio_projects in Hp.
  repeat (apply elem_of_cons in Hp as [->|Hp]); try (by inversion Hp);
    vm_compute in Hinfo; inversion Hinfo; subst; simpl in Hcd;
    inversion Hcd; subst; vm_compute; eauto.
Qed.

Lemma second_run_is_idle_witness :
  captured (run_twice healthy_portfolio portfolio_file).2.2 = [] ∧
  timestamps (run_twice healthy_portfolio portfolio_file).2.2
    = timestamps (run_twice healthy_portfolio portfolio_file).1.2.
Proof.
  destruct (second_run_is_idle
              Instance.parse_object Instance.stringify Instance.iso_time
              healthy_portfolio (λ _ _, None) portfolio_file portfolio_projects
              eq_refl portfolio_discovered eq_refl)
    with (first := (run_twice healthy_portfolio portfolio_file).1)
         (second := (run_twice healthy_portfolio portfolio_file).2)
    as (_ & Hcap & _ & _ & Ht & _).
  - apply (bool_decide_unpack _). vm_compute. reflexivity.
  - exact healthy_portfolio_dates.
  - intros url out _. reflexivity.
  - vm_compute. reflexivity.
  - reflexivity.
  - reflexivity.
  - split; [exact Hcap | exact Ht].
Defined.

(** * Further properties of the script *)

(** ** Discovery and the showcase path *)

Lemma filter_result_elem {A} (f : A → result bool) l r x :
  filter_result f l = Ok r → x ∈ r → x ∈ l ∧ f x = Ok true.
Proof.
  revert r. induction l as [|y l IH]; simpl; intros r H Hx.
  - inversion H; subst. inversion Hx.
  - destruct (f y) as [b|] eqn:Hy; [|discriminate].
    destruct (filter_result f l) as [r'|]; [|discriminate].
    inversion H; subst. destruct b.
    + apply elem_of_cons in Hx as [->|Hx].
      * split; [apply list_elem_of_here | exact Hy].
      * destruct (IH r' eq_refl Hx). split; [by apply list_elem_of_further | done].
    + destruct (IH r' eq_refl Hx). split; [by apply list_elem_of_further | done].
Qed.

Lemma lookup_child_is_Some x (children : list (string * node)) :
  x ∈ map fst children → is_Some (lookup_child x children).
Proof.
  induction children as [|[y n] children IH]; simpl; intros Hx; [inversion Hx|].
  destruct (decide (x = y)) as [->|Hne].
  - rewrite bool_decide_eq_true_2 by done. eauto.
  - rewrite bool_decide_eq_false_2 by done. apply IH.
    apply elem_of_cons in Hx as [?|?]; done.
Qed.

Lemma lookup_child_elem x n (children : list (string * node)) :
  lookup_child x children = Some n → (x, n) ∈ children.
Proof.
  induction children as [|[y m] children IH]; simpl; [discriminate|].
  destruct (decide (x = y)) as [->|Hne].
  - rewrite bool_decide_eq_true_2 by done. intros [= ->]. apply list_elem_of_here.
  - rewrite bool_decide_eq_false_2 by done. intros H. apply list_elem_of_further. auto.
Qed.

(** What discovery has checked for a project that it lists. *)
Lemma discovered_layout root projects p :
  getProjectFolders root = Ok projects → p ∈ projects →
  String.prefix "." p = false ∧
  ∃ children files,
    lookup_child p root = Some (Dir children) ∧
    lookup_child "assets" children = Some (Dir files) ∧
    existsb is_showcase (map fst files) = true.
Proof.
  intros Hscan Hp. unfold getProjectFolders in Hscan.
  destruct (filter_result_elem _ _ _ _ Hscan Hp) as [Hin Hcheck].
  apply list_elem_of_fmap in Hin as (entry & -> & Hin).
  apply list_elem_of_In, filter_In in Hin as [Hin Hvisible].
  unfold fs.readdirSync_withFileTypes in Hin.
  apply in_map_iff in Hin as ([x n] & <- & Hin). simpl in *.
  apply andb_true_iff in Hvisible as [_ Hdot]. apply negb_true_iff in Hdot.
  split; [exact Hdot|].
  unfold fs.existsSync, fs.readdirSync in Hcheck. simpl in Hcheck.
  destruct (lookup_child x root) as [[|children]|] eqn:Hc; simpl in Hcheck;
    try discriminate.
  destruct (lookup_child "assets" children) as [[|files]|] eqn:Ha; simpl in Hcheck;
    try discriminate.
  exists children, files. split; [reflexivity|]. split; [exact Ha|].
  by inversion Hcheck.
Qed.

Lemma showcase_entry root projects p :
  getProjectFolders root = Ok projects → p ∈ projects →
  ∃ children files,
    lookup_child p root = Some (Dir children) ∧
    lookup_child "assets" children = Some (Dir files) ∧
    (is_Some (lookup_child "Showcase.png" files) ∨
     is_Some (lookup_child "Showcase.webp" files)).
Proof.
  intros Hscan Hp.
  destruct (discovered_layout _ _ _ Hscan Hp) as (_ & children & files & Hc & Ha & Hs).
  exists children, files. split; [exact Hc|]. split; [exact Ha|].
  apply existsb_exists in Hs as (f & Hf & Hshow). apply list_elem_of_In in Hf.
  unfold is_showcase in Hshow. apply orb_true_iff in Hshow as [Hshow|Hshow];
    apply bool_decide_eq_true_1 in Hshow; subst f; [left | right];
    by apply lookup_child_is_Some.
Qed.

Lemma showcase_of_discovered root projects p :
  getProjectFolders root = Ok projects → p ∈ projects →
  fs.existsSync root (getShowcasePath root p) = true.
Proof.
  intros Hscan Hp.
  destruct (showcase_entry _ _ _ Hscan Hp) as (children & files & Hc & Ha & Hs).
  unfold getShowcasePath, fs.existsSync. simpl. rewrite Hc, Ha.
  destruct (lookup_child "Showcase.png" files) as [[|?]|] eqn:Hpng; simpl;
    rewrite ?Hc, ?Ha, ?Hpng; try reflexivity.
  destruct Hs as [[n Hn]|[n Hn]]; [discriminate|]. rewrite Hn. by destruct n.
Qed.

(** X1. For a project that discovery lists, [getShowcasePath] returns a
    path that exists: [assets/Showcase.png] when that entry exists, and
    otherwise [assets/Showcase.webp], which then exists. *)
Theorem getShowcasePath_of_discovered_exists root projects p :
  getProjectFolders root = Ok projects → p ∈ projects →
  fs.existsSync root (getShowcasePath root p) = true ∧
  (getShowcasePath root p = [p; "assets"; "Showcase.png"] ∨
   getShowcasePath root p = [p; "assets"; "Showcase.webp"] ∧
   fs.existsSync root [p; "assets"; "Showcase.png"] = false).
Proof.
  intros Hscan Hp.
  destruct (showcase_entry _ _ _ Hscan Hp) as (children & files & Hc & Ha & Hs).
  unfold getShowcasePath. simpl.
  destruct (fs.existsSync root [p; "assets"; "Showcase.png"]) eqn:Hpng; [auto|].
  split; [|auto].
  unfold fs.existsSync in *. simpl in *. rewrite Hc, Ha in *.
  destruct Hs as [[n Hn]|[n Hn]]; rewrite Hn in *.
  - destruct n; discriminate.
  - destruct n; reflexivity.
Qed.

Lemma getShowcasePath_of_discovered_exists_witness :
  fs.existsSync portfolio_root (getShowcasePath portfolio_root "proj-d") = true ∧
  getShowcasePath portfolio_root "proj-d" = ["proj-d"; "assets"; "Showcase.webp"].
Proof.
  destruct (getShowcasePath_of_discovered_exists portfolio_root portfolio_projects "proj-d")
    as [Hex Hpath].
  - vm_compute. reflexivity.
  - apply portfolio_has. vm_compute. reflexivity.
  - split; [exact Hex|]. reflexivity.
Defined.

Lemma discovery_outcome root (l : list (string * node)) :
  (∀ x n, (x, n) ∈ l → lookup_child x root = Some n) →
  filter_result
    (λ name,
       let assetsDir := [name; "assets"] in
       if negb (fs.existsSync root assetsDir) then Ok false
       else
         match fs.readdirSync root assetsDir with
         | Raise msg => Raise msg
         | Ok files => Ok (existsb is_showcase files)
         end)
    (map name
       (List.filter (λ entry, isDirectory entry && negb (String.prefix "." (name entry)))
          (fs.readdirSync_withFileTypes l)))
  = if assets_listable l then Ok (map fst (List.filter is_project l))
    else Raise "ENOTDIR: not a directory, scandir".
Proof.
  induction l as [|[x n] l IH]; intros Hlk; [reflexivity|].
  assert (IH' := IH (λ y m Hy, Hlk y m (list_elem_of_further _ _ _ Hy))). clear IH.
  assert (Hx := Hlk x n (list_elem_of_here _ _)).
  unfold fs.readdirSync_withFileTypes, assets_listable in *. simpl.
  unfold is_project at 1. simpl.
  destruct n as [|children]; simpl; [exact IH'|].
  destruct (String.prefix "." x) eqn:Hp; simpl; [exact IH'|].
  cbv zeta in IH'. rewrite IH'.
  unfold fs.existsSync, fs.readdirSync. simpl. rewrite Hx.
  destruct (lookup_child "assets" children) as [[|files]|]; simpl; try reflexivity.
  - destruct (forallb _ l); [|reflexivity].
    by destruct (existsb is_showcase (map fst files)).
  - by destruct (forallb _ l).
Qed.

(** X2. On a root whose entries have distinct names, discovery either
    returns the projects or throws, and it throws exactly when some visible
    directory has a regular file called [assets]: the error is the ENOTDIR
    of [readdirSync], and no list is returned at all. *)
Theorem getProjectFolders_returns_or_raises (root : list (string * node)) :
  NoDup (map fst root) →
  getProjectFolders root
  = if assets_listable root then Ok (map fst (List.filter is_project root))
    else Raise "ENOTDIR: not a directory, scandir".
Proof.
  intros Hnd. unfold getProjectFolders. apply discovery_outcome.
  intros x n Hin. by apply lookup_child_NoDup.
Qed.

Lemma getProjectFolders_returns_or_raises_witness :
  getProjectFolders root_with_assets_file = Raise "ENOTDIR: not a directory, scandir" ∧
  getProjectFolders portfolio_root = Ok portfolio_projects.
Proof.
  split.
  - rewrite (getProjectFolders_returns_or_raises root_with_assets_file); [reflexivity|].
    apply (bool_decide_unpack _). vm_compute. reflexivity.
  - rewrite (getProjectFolders_returns_or_raises portfolio_root); [reflexivity|].
    apply (bool_decide_unpack _). vm_compute. reflexivity.
Defined.

(** ** Invariants of the loop *)

Section Invariants.

Variable Date_parse : string → option Z.
Variable env : Env.

Local Abbreviation decision_of := (decision_of Date_parse env).
Local Abbreviation ledger_run := (ledger_run Date_parse env).
Local Abbreviation captures_run := (captures_run Date_parse env).
Local Abbreviation counts_run := (counts_run Date_parse env).

Lemma decision_capture_inv t p url cd :
  decision_of t p = Capture url cd →
  ∃ info,
    getRepoInfo (graphql env) REPO_OWNER p = Ok info ∧
    homepageUrl info = Some url ∧ committedDate info = Some cd ∧
    up_to_date Date_parse t p cd = false.
Proof.
  unfold decision_of.
  destruct (getRepoInfo (graphql env) REPO_OWNER p) as [info|]; [|discriminate].
  destruct (committedDate info) as [[|c d]|] eqn:Hc; try discriminate.
  destruct (up_to_date Date_parse t p (String c d)) eqn:Hup; [discriminate|].
  destruct (homepageUrl info) as [[|u r]|] eqn:Hu; try discriminate.
  intros [= <- <-]. eauto.
Qed.

Lemma decision_timestamp_only_inv t p cd :
  decision_of t p = TimestampOnly cd →
  ∃ info,
    getRepoInfo (graphql env) REPO_OWNER p = Ok info ∧
    committedDate info = Some cd ∧
    up_to_date Date_parse t p cd = false.
Proof.
  unfold decision_of.
  destruct (getRepoInfo (graphql env) REPO_OWNER p) as [info|]; [|discriminate].
  destruct (committedDate info) as [[|c d]|] eqn:Hc; try discriminate.
  destruct (up_to_date Date_parse t p (String c d)) eqn:Hup; [discriminate|].
  destruct (homepageUrl info) as [[|u r]|] eqn:Hu; try discriminate;
    intros [= <-]; eauto.
Qed.

(** The entry of a project after the loop body: the old one, or the commit
    timestamp that was fetched and found not to be up to date. *)
Lemma ledger_after_entry t p k :
  ledger_after env (decision_of t p) t p !! k = t !! k ∨
  k = p ∧
  ∃ info cd,
    getRepoInfo (graphql env) REPO_OWNER p = Ok info ∧
    committedDate info = Some cd ∧
    up_to_date Date_parse t p cd = false ∧
    ledger_after env (decision_of t p) t p !! k = Some cd.
Proof.
  destruct (decide (k = p)) as [->|Hne]; [|left; by apply ledger_after_other].
  destruct (decision_of t p) as [| | |cd|url cd] eqn:Hd; simpl; auto.
  - destruct (assign_lookup p cd t) as [Hset | (_ & _ & ->)]; [|by left].
    right. split; [done|].
    destruct (decision_timestamp_only_inv _ _ _ Hd) as (info & ? & ? & ?).
    exists info, cd. auto.
  - destruct (page env url _); [auto|].
    destruct (assign_lookup p cd t) as [Hset | (_ & _ & ->)]; [|by left].
    right. split; [done|].
    destruct (decision_capture_inv _ _ _ _ Hd) as (info & ? & ? & ? & ?).
    exists info, cd. auto.
Qed.

Lemma ledger_run_entry projects t k :
  ledger_run t projects !! k = t !! k ∨
  k ∈ projects ∧
  ∃ info cd,
    getRepoInfo (graphql env) REPO_OWNER k = Ok info ∧
    committedDate info = Some cd ∧ ledger_run t projects !! k = Some cd.
Proof.
  revert t. induction projects as [|p rest IH]; intros t; simpl; [auto|].
  destruct (IH (ledger_after env (decision_of t p) t p)) as [-> | (Hin & info & cd & H)].
  - destruct (ledger_after_entry t p k) as [-> | (-> & info & cd & Hi & Hc & _ & ->)];
      [auto|].
    right. split; [apply list_elem_of_here | eauto].
  - right. split; [by apply list_elem_of_further | eauto].
Qed.

Lemma captures_run_elem projects t url out :
  (url, out) ∈ captures_run t projects →
  ∃ p info,
    p ∈ projects ∧
    getRepoInfo (graphql env) REPO_OWNER p = Ok info ∧
    homepageUrl info = Some url ∧ is_Some (committedDate info) ∧
    out = getShowcasePath (root env) p.
Proof.
  revert t. induction projects as [|p rest IH]; intros t; simpl; [by inversion 1|].
  intros [Hin|Hin]%elem_of_app.
  - destruct (decision_of t p) as [| | | |u cd] eqn:Hd; simpl in Hin; try by inversion Hin.
    apply list_elem_of_singleton in Hin. inversion Hin; subst.
    destruct (decision_capture_inv _ _ _ _ Hd) as (info & ? & ? & Hc & _).
    exists p, info. rewrite Hc. repeat split; eauto. apply list_elem_of_here.
  - destruct (IH _ Hin) as (q & info & ? & ?). exists q, info.
    split; [by apply list_elem_of_further | done].
Qed.

Lemma captures_run_paths projects t :
  map snd (captures_run t projects) `sublist_of` map (getShowcasePath (root env)) projects.
Proof.
  revert t. induction projects as [|p rest IH]; intros t; simpl; [constructor|].
  rewrite map_app.
  destruct (decision_of t p); simpl; try (apply sublist_cons; apply IH).
  apply sublist_skip, IH.
Qed.

Lemma getShowcasePath_inj p q :
  getShowcasePath (root env) p = getShowcasePath (root env) q → p = q.
Proof.
  intros H. apply (f_equal head) in H.
  rewrite !head_getShowcasePath in H. congruence.
Qed.

(** The counters count what happened: successful captures, and the
    projects recorded without a capture. *)
Lemma counts_run_captures projects t s n :
  ∃ only,
    counts_run t (s, n) projects
    = (s + length (succeeded env (captures_run t projects)), n + only) ∧
    (only + length (captures_run t projects) ≤ length projects)%nat.
Proof.
  revert t s n. induction projects as [|p rest IH]; intros t s n; simpl.
  - exists 0. split; [f_equal; lia | simpl; lia].
  - unfold succeeded in *. rewrite List.filter_app, !length_app.
    destruct (decision_of t p) as [| | |cd|url cd] eqn:Hd; simpl.
    1,2,3: destruct (IH t s n) as (only & -> & Hle);
      exists only; split; [reflexivity | lia].
    + destruct (IH (assign p cd t) s (S n)) as (only & -> & Hle).
      exists (S only). split; [f_equal; lia | lia].
    + destruct (page env url (getShowcasePath (root env) p)); simpl.
      * destruct (IH t s n) as (only & -> & Hle).
        exists only. split; [reflexivity | lia].
      * destruct (IH (assign p cd t) (S s) n) as (only & -> & Hle).
        exists only. split; [f_equal; lia | lia].
Qed.

End Invariants.

(** ** What a completed run has done *)

Section Completed.

Variable JSON_parse : string → option (gmap string string).
Variable JSON_stringify : gmap string string → string.
Variable Date_parse : string → option Z.
Variable env : Env.
Variable file : TsFile.
Variable projects : list string.

Hypothesis token_set : falsy (GITHUB_TOKEN env) = false.
Hypothesis distinct_names : NoDup (map fst (root env)).
Hypothesis discovered : getProjectFolders (root env) = Ok projects.

Local Abbreviation script := (script JSON_parse JSON_stringify Date_parse env).
Local Abbreviation loaded := (loaded JSON_parse).

(** X3. Every call of [takeScreenshot] in a run is for a discovered
    project: the URL is the homepage fetched for it, a commit timestamp was
    fetched for it, and the output path is its showcase path, which already
    exists, so a run only ever overwrites a showcase image. *)
Theorem captures_overwrite_showcases url out :
  (url, out) ∈ captured (script file).2 →
  ∃ p info,
    p ∈ projects ∧
    getRepoInfo (graphql env) REPO_OWNER p = Ok info ∧
    homepageUrl info = Some url ∧ is_Some (committedDate info) ∧
    out = getShowcasePath (root env) p ∧
    fs.existsSync (root env) out = true.
Proof.
  destruct (script_completes JSON_parse JSON_stringify Date_parse env file projects
              token_set discovered) as (st & -> & _ & Hc & _).
  simpl. rewrite Hc. intros Hin.
  destruct (captures_run_elem Date_parse env _ _ _ _ Hin) as (p & info & Hp & Hi & Hu & Hd & ->).
  exists p, info. repeat split; auto.
  exact (showcase_of_discovered _ _ _ discovered Hp).
Qed.

(** X4. A run calls [takeScreenshot] at most once per discovered project:
    the output paths of its calls are pairwise distinct and there are no
    more calls than projects. *)
Theorem at_most_one_capture_per_project :
  NoDup (map snd (captured (script file).2)) ∧
  (length (captured (script file).2) ≤ length projects)%nat.
Proof.
  destruct (script_completes JSON_parse JSON_stringify Date_parse env file projects
              token_set discovered) as (st & -> & _ & Hc & _).
  simpl. rewrite Hc.
  pose proof (captures_run_paths Date_parse env projects (loaded file)) as Hsub.
  split.
  - refine (sublist_NoDup _ _ _ Hsub).
    assert (Hinj : Inj (=) (=) (getShowcasePath (root env)))
      by (intros p q; apply getShowcasePath_inj).
    apply (NoDup_fmap_2 _).
    exact (getProjectFolders_NoDup _ _ distinct_names discovered).
  - apply sublist_length in Hsub. by rewrite !length_map in Hsub.
Qed.

(** X5. A run never deletes a ledger entry, and every entry of the ledger
    it ends with is either the loaded one or, for a discovered project, the
    commit timestamp fetched for that project. *)
Theorem entries_are_loaded_or_fetched k :
  (is_Some (loaded file !! k) → is_Some (timestamps (script file).2 !! k)) ∧
  (timestamps (script file).2 !! k = loaded file !! k ∨
   k ∈ projects ∧
   ∃ info cd,
     getRepoInfo (graphql env) REPO_OWNER k = Ok info ∧
     committedDate info = Some cd ∧
     timestamps (script file).2 !! k = Some cd).
Proof.
  destruct (script_completes JSON_parse JSON_stringify Date_parse env file projects
              token_set discovered) as (st & -> & Ht & _).
  simpl. rewrite Ht.
  destruct (ledger_run_entry Date_parse env projects (loaded file) k)
    as [Heq | (Hin & info & cd & Hi & Hc & Heq)].
  - split; [by rewrite Heq | by left].
  - split; [rewrite Heq; eauto | right; eauto 10].
Qed.

(** X6. Ledger entries do not go back in time: when the loaded entry and
    the final entry of a name are both dates, the final one is not earlier. *)
Theorem entries_do_not_go_back k last final a b :
  Date_parse EmptyString = None →
  loaded file !! k = Some last →
  timestamps (script file).2 !! k = Some final →
  Date_parse last = Some a → Date_parse final = Some b →
  (a ≤ b)%Z.
Proof.
  intros Hempty Hlast Hfinal Ha Hb.
  destruct (script_completes JSON_parse JSON_stringify Date_parse env file projects
              token_set discovered) as (st & E & Ht & _).
  rewrite E in Hfinal. simpl in Hfinal. rewrite Ht in Hfinal.
  destruct (decide (k ∈ projects)) as [Hin|Hout].
  - destruct (run_project Date_parse env (loaded file) projects k
                (getProjectFolders_NoDup _ _ distinct_names discovered) Hin) as [Hk _].
    rewrite Hk in Hfinal.
    destruct (ledger_after_entry Date_parse env (loaded file) k k)
      as [Heq | (_ & info & cd & _ & _ & Hup & Heq)]; rewrite Heq in Hfinal.
    + assert (final = last) as -> by congruence. assert (a = b) by congruence. lia.
    + assert (cd = final) as -> by congruence.
      unfold up_to_date in Hup. rewrite Hlast in Hup.
      destruct last; [congruence|]. rewrite Ha, Hb in Hup. simpl in Hup. lia.
  - rewrite ledger_run_other in Hfinal by exact Hout.
    assert (final = last) as -> by congruence. assert (a = b) by congruence. lia.
Qed.

(** X7. The counters of the summary count what the run did:
    [screenshotCount] is the number of calls of [takeScreenshot] that
    succeeded, and the timestamp-only updates together with all the calls
    are no more than the projects. *)
Theorem counters_count_the_run :
  screenshotCount (script file).2 = length (succeeded env (captured (script file).2)) ∧
  (timestampOnlyCount (script file).2 + length (captured (script file).2)
   ≤ length projects)%nat.
Proof.
  destruct (script_completes JSON_parse JSON_stringify Date_parse env file projects
              token_set discovered) as (st & -> & _ & Hc & Hn & _).
  simpl. rewrite Hc.
  destruct (counts_run_captures Date_parse env projects (loaded file) 0 0)
    as (only & Hcount & Hle).
  rewrite Hcount in Hn. inversion Hn as [[Hs Ho]]. split; [reflexivity|].
  simpl. lia.
Qed.

End Completed.

(** ** The console and the exits of [main] *)

Lemma readTimestamps_initial JSON_parse file :
  readTimestamps JSON_parse (initial file)
  = (Ret (loaded JSON_parse file),
     {| console := load_warning JSON_parse file; ts_file := file; captured := [];
        timestamps := ∅; screenshotCount := 0; timestampOnlyCount := 0 |}).
Proof.
  unfold readTimestamps, existsSync_TIMESTAMPS_FILE, readFileSync_TIMESTAMPS_FILE,
    parse, try_catch, gets, print, modify, throw, mbind, M_bind, mret, M_ret, initial.
  destruct file as [| |text]; simpl; try reflexivity.
  destruct (JSON_parse text); reflexivity.
Qed.

Lemma foldl_visit_console Date_parse env projects st :
  ∃ more, console (foldl (visit Date_parse env) st projects) = (console st ++ more)%list.
Proof.
  revert st. induction projects as [|p rest IH]; intros st; simpl.
  - exists []. by rewrite app_nil_r.
  - destruct (process_visit Date_parse env p st) as (_ & _ & _ & _ & _ & (r & Hr)).
    destruct (IH (visit Date_parse env st p)) as (more & ->). rewrite Hr.
    eexists. by rewrite <- app_assoc.
Qed.

(** The run of [main] when it gets through its loop: the state at the loop
    entry, the loop, then the write and the summary, or the error of the
    write caught at top level. *)
Lemma main_trace JSON_parse JSON_stringify Date_parse env file projects :
  falsy (GITHUB_TOKEN env) = false →
  getProjectFolders (root env) = Ok projects →
  ∃ st,
    script JSON_parse JSON_stringify Date_parse env file
    = (if writable file then 0 else 1, st) ∧
    console st
    = (console (foldl (visit Date_parse env) (before_loop JSON_parse file projects) projects)
       ++ [if writable file
           then summary (screenshotCount st) (timestampOnlyCount st)
           else Error "Fatal error: EACCES: permission denied, open"])%list.
Proof.
  intros Htok Hscan. unfold script, main. rewrite Htok, Hscan.
  unfold mbind at 1 2. unfold M_bind at 1 2. simpl. rewrite readTimestamps_initial.
  unfold set_timestamps, set_counts, print, writeTimestamps, set_ts_file, lift,
    gets, modify, throw, mbind, M_bind, mret, M_ret. simpl.
  rewrite for_of_process. fold (before_loop JSON_parse file projects).
  destruct (foldl_visit Date_parse env projects (before_loop JSON_parse file projects))
    as (Hf & _).
  simpl in Hf. rewrite Hf. unfold summary.
  destruct (writable file); simpl; [|eexists; split; reflexivity].
  destruct ((0 <? screenshotCount _)%nat || (0 <? timestampOnlyCount _)%nat) eqn:E;
    eexists; (split; [reflexivity|]); simpl; rewrite E; reflexivity.
Qed.

(** X8. Without a token (unset or empty) the script prints one error and
    exits with status 1 before anything else: the state file is neither
    read nor written, nothing is fetched and nothing is captured. *)
Theorem missing_token_stops_the_script JSON_parse JSON_stringify Date_parse env file :
  falsy (GITHUB_TOKEN env) = true →
  (script JSON_parse JSON_stringify Date_parse env file).1 = 1 ∧
  console (script JSON_parse JSON_stringify Date_parse env file).2
    = [Error "Error: GITHUB_TOKEN environment variable is required."] ∧
  ts_file (script JSON_parse JSON_stringify Date_parse env file).2 = file ∧
  captured (script JSON_parse JSON_stringify Date_parse env file).2 = [] ∧
  timestamps (script JSON_parse JSON_stringify Date_parse env file).2 = ∅.
Proof.
  intros Htok. unfold script, main. rewrite Htok. simpl. auto.
Qed.

Lemma missing_token_stops_the_script_witness :
  (script Instance.parse_object Instance.stringify Instance.iso_time
     portfolio_without_token portfolio_file).1 = 1 ∧
  ts_file (script Instance.parse_object Instance.stringify Instance.iso_time
             portfolio_without_token portfolio_file).2 = portfolio_file.
Proof.
  destruct (missing_token_stops_the_script
              Instance.parse_object Instance.stringify Instance.iso_time
              portfolio_without_token portfolio_file eq_refl) as (H1 & _ & H2 & _).
  split; [exact H1 | exact H2].
Defined.

(** X9. When scanning the root throws, the error escapes [main]: after the
    warning of the load, if any, the only line printed is the fatal error;
    the process exits with status 1, no project is processed, nothing is
    captured and the state file is left as it was. *)
Theorem scan_error_is_fatal JSON_parse JSON_stringify Date_parse env file msg :
  falsy (GITHUB_TOKEN env) = false →
  getProjectFolders (root env) = Raise msg →
  script JSON_parse JSON_stringify Date_parse env file
  = (1, {| console := (load_warning JSON_parse file
                       ++ [Error ("Fatal error: " ++ msg)])%list;
           ts_file := file; captured := [];
           timestamps := loaded JSON_parse file;
           screenshotCount := 0; timestampOnlyCount := 0 |}).
Proof.
  intros Htok Hscan. unfold script, main. rewrite Htok, Hscan.
  unfold mbind at 1 2. unfold M_bind at 1 2. simpl. rewrite readTimestamps_initial.
  reflexivity.
Qed.

Lemma scan_error_is_fatal_witness :
  (script Instance.parse_object Instance.stringify Instance.iso_time
     portfolio_unlistable portfolio_file).1 = 1 ∧
  ts_file (script Instance.parse_object Instance.stringify Instance.iso_time
             portfolio_unlistable portfolio_file).2 = portfolio_file.
Proof.
  rewrite (scan_error_is_fatal
             Instance.parse_object Instance.stringify Instance.iso_time
             portfolio_unlistable portfolio_file "ENOTDIR: not a directory, scandir"
             eq_refl eq_refl).
  split; reflexivity.
Defined.

(** X10. The state store round trip: once [writeTimestamps] has written a
    ledger over a state file that can be written (missing, corrupt or a
    ledger), [readTimestamps] returns that ledger and prints no warning,
    provided [JSON.parse] reads back what [JSON.stringify] printed; on a
    state file that cannot be opened, [writeTimestamps] throws and leaves
    it as it was. *)
Theorem write_then_read JSON_parse JSON_stringify (t : gmap string string) st :
  JSON_parse (JSON_stringify t ++ nl) = Some t →
  (writable (ts_file st) = true →
   ∃ st',
     (writeTimestamps JSON_stringify t;; readTimestamps JSON_parse) st = (Ret t, st') ∧
     console st' = console st ∧
     ts_file st' = Content (JSON_stringify t ++ nl) ∧
     timestamps st' = timestamps st ∧ captured st' = captured st) ∧
  (writable (ts_file st) = false →
   writeTimestamps JSON_stringify t st = (Throw "EACCES: permission denied, open", st)).
Proof.
  intros Hround.
  unfold writeTimestamps, set_ts_file, readTimestamps, existsSync_TIMESTAMPS_FILE,
    readFileSync_TIMESTAMPS_FILE, parse, try_catch, gets, print, modify, throw,
    mbind, M_bind, mret, M_ret.
  simpl. split; intros ->; [|reflexivity].
  simpl. rewrite Hround. simpl. eexists. split; [reflexivity|]. simpl. auto.
Qed.

Lemma write_then_read_witness :
  ∃ st',
    (writeTimestamps Instance.stringify portfolio_ledger;;
     readTimestamps Instance.parse_object) (initial corrupt_file)
    = (Ret portfolio_ledger, st') ∧
    console st' = [].
Proof.
  destruct (write_then_read Instance.parse_object Instance.stringify portfolio_ledger
              (initial corrupt_file)) as [Hwrite _].
  - vm_compute. reflexivity.
  - destruct (Hwrite eq_refl) as (st' & Hrun & Hconsole & _).
    exists st'. split; [exact Hrun | exact Hconsole].
Defined.

Section Console.

Variable JSON_parse : string → option (gmap string string).
Variable JSON_stringify : gmap string string → string.
Variable Date_parse : string → option Z.
Variable env : Env.
Variable file : TsFile.
Variable projects : list string.

Hypothesis token_set : falsy (GITHUB_TOKEN env) = false.
Hypothesis discovered : getProjectFolders (root env) = Ok projects.

Local Abbreviation script := (script JSON_parse JSON_stringify Date_parse env).
Local Abbreviation visit := (visit Date_parse env).
Local Abbreviation decision_of := (decision_of Date_parse env).

(** X11. The console of a run that gets through its loop starts with the
    warning of the load, if any, and the line that lists the discovered
    projects.  It ends with the summary when the state file can be written,
    and with the fatal error of the write otherwise; the summary says that
    no updates were necessary exactly when both counters are 0. *)
Theorem console_frame :
  (∃ middle,
     console (script file).2
     = (load_warning JSON_parse file
        ++ [Log ("Found " ++ pretty (length projects) ++ " project(s): "
                 ++ String.concat ", " projects ++ nl)]
        ++ middle
        ++ [if writable file
            then summary (screenshotCount (script file).2)
                   (timestampOnlyCount (script file).2)
            else Error "Fatal error: EACCES: permission denied, open"])%list) ∧
  (summary (screenshotCount (script file).2) (timestampOnlyCount (script file).2)
   = Log (nl ++ "Finished. No updates were necessary.")
   ↔ screenshotCount (script file).2 = 0 ∧ timestampOnlyCount (script file).2 = 0).
Proof.
  destruct (main_trace JSON_parse JSON_stringify Date_parse env file projects
              token_set discovered) as (st & -> & Hc).
  simpl. split.
  - destruct (foldl_visit_console Date_parse env projects
                (before_loop JSON_parse file projects)) as (more & Hm).
    rewrite Hc, Hm. exists more. simpl. by rewrite <- !app_assoc.
  - unfold summary.
    destruct (screenshotCount st) as [|s]; destruct (timestampOnlyCount st) as [|n];
      simpl; split; try done; try (intros [? ?]; done).
Qed.

End Console.

(** ** Errors of a project on the console *)

Section Errors.

Variable Date_parse : string → option Z.
Variable env : Env.

Local Abbreviation visit := (visit Date_parse env).
Local Abbreviation decision_of := (decision_of Date_parse env).

Ltac run_body :=
  unfold takeScreenshot, lift, try_catch, gets, print, record_capture,
    set_timestamps, set_counts, modify, throw, mbind, M_bind, mret, M_ret;
  simpl.

(** The catch of the loop body prints the message of what was thrown. *)
Lemma visit_prints_error p st :
  (∀ msg, getRepoInfo (graphql env) REPO_OWNER p = Raise msg →
     Error ("  Error processing '" ++ p ++ "': " ++ msg) ∈ console (visit st p)) ∧
  (∀ url cd msg,
     decision_of (timestamps st) p = Capture url cd →
     page env url (getShowcasePath (root env) p) = Some msg →
     Error ("  Error processing '" ++ p ++ "': " ++ msg) ∈ console (visit st p)).
Proof.
  unfold visit, process, decision_of, up_to_date.
  destruct st as [c f k t s n].
  destruct (getRepoInfo (graphql env) REPO_OWNER p) as [info|m]; run_body.
  2: { split; [|discriminate]. intros msg [= ->].
       apply elem_of_app. right. apply list_elem_of_here. }
  split; [discriminate|]. intros url cd msg.
  destruct (committedDate info) as [[|a d]|]; try discriminate. run_body.
  destruct (t !! p) as [[|b last]|]; simpl.
  2: destruct (date_le (Date_parse (String a d)) (Date_parse (String b last)));
       [discriminate|].
  all: destruct (homepageUrl info) as [[|u r]|]; try discriminate;
    intros [= <- <-] Hpage; run_body; rewrite Hpage; run_body;
    apply elem_of_app; right; apply list_elem_of_here.
Qed.

(** The first visit of a listed project sees its loaded entry, and what it
    prints stays on the console. *)
Lemma foldl_visit_first projects p st :
  p ∈ projects →
  ∃ st',
    timestamps st' !! p = timestamps st !! p ∧
    ∀ l, l ∈ console (visit st' p) → l ∈ console (foldl visit st projects).
Proof.
  revert st. induction projects as [|q rest IH]; intros st Hp; [inversion Hp|].
  simpl. destruct (decide (q = p)) as [->|Hne].
  - exists st. split; [reflexivity|].
    by destruct (foldl_visit Date_parse env rest (visit st p)) as (_ & _ & _ & _ & Hk & _).
  - apply elem_of_cons in Hp as [->|Hp]; [done|].
    destruct (IH (visit st q) Hp) as (st' & Ht & Hl). exists st'. split; [|exact Hl].
    rewrite Ht. destruct (process_visit Date_parse env q st) as (_ & _ & -> & _).
    apply ledger_after_other. congruence.
Qed.

End Errors.

(** X12. A discovered project whose fetch throws, or whose capture throws
    once the loop has decided to capture, has its error on the console of
    the run, with the name of the project and the message. *)
Theorem project_errors_are_printed
    JSON_parse JSON_stringify Date_parse env file projects p msg :
  falsy (GITHUB_TOKEN env) = false →
  getProjectFolders (root env) = Ok projects →
  p ∈ projects →
  (getRepoInfo (graphql env) REPO_OWNER p = Raise msg ∨
   ∃ info url cd,
     getRepoInfo (graphql env) REPO_OWNER p = Ok info ∧
     homepageUrl info = Some url ∧ committedDate info = Some cd ∧
     newer_than_entry Date_parse (loaded JSON_parse file) p cd ∧
     page env url (getShowcasePath (root env) p) = Some msg) →
  Error ("  Error processing '" ++ p ++ "': " ++ msg)
  ∈ console (script JSON_parse JSON_stringify Date_parse env file).2.
Proof.
  intros Htok Hscan Hp Hfail.
  destruct (main_trace JSON_parse JSON_stringify Date_parse env file projects Htok Hscan)
    as (st & -> & Hconsole).
  simpl. rewrite Hconsole. apply elem_of_app. left.
  destruct (foldl_visit_first Date_parse env projects p
              (before_loop JSON_parse file projects) Hp) as (st' & Ht & Hl).
  apply Hl. destruct (visit_prints_error Date_parse env p st') as [Hfetch Hshot].
  destruct Hfail as [Hraise | (info & url & cd & Hi & Hu & Hc & Hnew & Hpage)].
  - by apply Hfetch.
  - apply (Hshot url cd); [|exact Hpage].
    rewrite (decision_of_ext Date_parse env _ (loaded JSON_parse file) p Ht).
    by apply (decision_capture Date_parse env _ _ info).
Qed.

Lemma project_errors_are_printed_witness :
  Error "  Error processing 'proj-e': Could not resolve to a Repository"
    ∈ console portfolio_run.2 ∧
  Error "  Error processing 'proj-f': net::ERR_NAME_NOT_RESOLVED"
    ∈ console portfolio_run.2.
Proof.
  split.
  - apply (project_errors_are_printed
             Instance.parse_object Instance.stringify Instance.iso_time
             portfolio portfolio_file portfolio_projects
             "proj-e" "Could not resolve to a Repository" eq_refl portfolio_discovered).
    + apply portfolio_has. vm_compute. reflexivity.
    + left. vm_compute. reflexivity.
  - apply (project_errors_are_printed
             Instance.parse_object Instance.stringify Instance.iso_time
             portfolio portfolio_file portfolio_projects
             "proj-f" "net::ERR_NAME_NOT_RESOLVED" eq_refl portfolio_discovered).
    + apply portfolio_has. vm_compute. reflexivity.
    + right.
      exists {| homepageUrl := Some "https://down.example.com";
                committedDate := Some "2024-05-01T00:00:00Z" |},
             "https://down.example.com", "2024-05-01T00:00:00Z".
      split; [vm_compute; reflexivity|]. split; [reflexivity|].
      split; [reflexivity|]. split; [left; vm_compute; reflexivity|].
      vm_compute. reflexivity.
Defined.

(** ** The metadata client on incomplete responses *)

(** X13. [getRepoInfo] throws exactly when the query is rejected, with the
    same message.  On any response it returns: without a repository both
    fields are null, and a commit timestamp is returned only when the
    repository, its default branch and a commit at its tip are all there. *)
Theorem getRepoInfo_tolerates_absence graphql owner name :
  match graphql owner name with
  | Raise msg => getRepoInfo graphql owner name = Raise msg
  | Ok response =>
      ∃ info,
        getRepoInfo graphql owner name = Ok info ∧
        (repository response = None →
         homepageUrl info = None ∧ committedDate info = None) ∧
        (∀ cd, committedDate info = Some cd →
           ∃ repo ref commit,
             repository response = Some repo ∧ defaultBranchRef repo = Some ref ∧
             target ref = Some commit ∧ c_committedDate commit = Some cd)
  end.
Proof.
  unfold getRepoInfo. destruct (graphql owner name) as [response|msg]; [|reflexivity].
  eexists. split; [reflexivity|]. simpl. split.
  - intros ->. split; reflexivity.
  - intros cd Hcd. apply or_null_Some in Hcd as [Hcd _].
    destruct (repository response) as [repo|]; [|discriminate]. simpl in Hcd.
    destruct (defaultBranchRef repo) as [ref|] eqn:Hr; [|discriminate]. simpl in Hcd.
    destruct (target ref) as [commit|] eqn:Ht; [|discriminate]. simpl in Hcd.
    exists repo, ref, commit. auto.
Qed.

Lemma getRepoInfo_tolerates_absence_witness :
  getRepoInfo portfolio_graphql REPO_OWNER "proj-e" = Raise "Could not resolve to a Repository" ∧
  getRepoInfo (λ _ _, Ok {| repository := None |}) REPO_OWNER "proj-a"
  = Ok {| homepageUrl := None; committedDate := None |}.
Proof.
  split.
  - exact (getRepoInfo_tolerates_absence portfolio_graphql REPO_OWNER "proj-e").
  - destruct (getRepoInfo_tolerates_absence (λ _ _, Ok {| repository := None |})
                REPO_OWNER "proj-a") as ([u c] & -> & Hnone & _).
    destruct (Hnone eq_refl) as [Hu Hc]. simpl in Hu, Hc. by subst.
Defined.

(** ** The encoding of the capture *)

Lemma string_length_app (s1 s2 : string) :
  String.length (s1 ++ s2) = (String.length s1 + String.length s2)%nat.
Proof. induction s1 as [|a s1 IH]; simpl; [reflexivity | by rewrite IH]. Qed.

Lemma ends_with_app suffix (p r : string) :
  ends_with suffix r = true → ends_with suffix (p ++ r) = true.
Proof.
  intros Hr. induction p as [|a p IH]; [exact Hr|].
  change (ends_with suffix (String a p ++ r))
    with ((String a (p ++ r) =? suffix)%string || ends_with suffix (p ++ r)).
  rewrite IH. apply orb_true_r.
Qed.

Lemma ends_with_longer suffix (p r : string) :
  (String.length suffix < String.length r)%nat →
  ends_with suffix (p ++ r) = ends_with suffix r.
Proof.
  intros Hlen. induction p as [|a p IH]; [reflexivity|].
  change (ends_with suffix (String a p ++ r))
    with ((String a (p ++ r) =? suffix)%string || ends_with suffix (p ++ r)).
  rewrite IH. replace (String a (p ++ r) =? suffix)%string with false; [reflexivity|].
  symmetry. apply String.eqb_neq. intros E. apply (f_equal String.length) in E.
  simpl in E. rewrite string_length_app in E. lia.
Qed.

(** X14. The encoding that [takeScreenshot] selects for the showcase path
    of a project is the one of the file it overwrites: [png] when
    [Showcase.png] exists, [webp] otherwise, whatever the name of the
    project. *)
Theorem imageType_of_showcase root p :
  imageType (getShowcasePath root p)
  = if fs.existsSync root [p; "assets"; "Showcase.png"] then "png" else "webp".
Proof.
  unfold imageType, getShowcasePath. simpl.
  destruct (fs.existsSync root [p; "assets"; "Showcase.png"]); simpl.
  - rewrite ends_with_longer by (simpl; lia). reflexivity.
  - rewrite ends_with_app by reflexivity. reflexivity.
Qed.

(** ** Entries that are not dates, and state files that are not ledgers *)

Section Refresh.

Variable JSON_parse : string → option (gmap string string).
Variable JSON_stringify : gmap string string → string.
Variable Date_parse : string → option Z.
Variable env : Env.
Variable projects : list string.

Hypothesis token_set : falsy (GITHUB_TOKEN env) = false.
Hypothesis distinct_names : NoDup (map fst (root env)).
Hypothesis discovered : getProjectFolders (root env) = Ok projects.

Local Abbreviation script := (script JSON_parse JSON_stringify Date_parse env).
Local Abbreviation loaded := (loaded JSON_parse).

(** X15. A ledger entry that is empty or not a date, or a fetched commit
    timestamp that is not a date, never makes a project count as up to
    date: with a homepage the project is captured, once, and on success its
    entry becomes the fetched commit timestamp. *)
Theorem invalid_date_forces_refresh file p info url cd last :
  p ∈ projects →
  getRepoInfo (graphql env) REPO_OWNER p = Ok info →
  homepageUrl info = Some url →
  committedDate info = Some cd →
  loaded file !! p = Some last →
  last = EmptyString ∨ Date_parse last = None ∨ Date_parse cd = None →
  captures_for p (captured (script file).2) = [(url, getShowcasePath (root env) p)] ∧
  (page env url (getShowcasePath (root env) p) = None →
   timestamps (script file).2 !! p = Some cd).
Proof.
  intros Hp Hinfo Hu Hc Hlast Hbad.
  destruct (script_completes JSON_parse JSON_stringify Date_parse env file projects
              token_set discovered) as (st & -> & Ht & Hk & _).
  simpl. rewrite Ht, Hk.
  destruct (run_project Date_parse env (loaded file) projects p
              (getProjectFolders_NoDup _ _ distinct_names discovered) Hp) as [-> ->].
  assert (Hd : decision_of Date_parse env (loaded file) p = Capture url cd).
  { destruct (getRepoInfo_fields _ _ _ _ Hinfo) as [Hu' Hc'].
    specialize (Hu' _ Hu). specialize (Hc' _ Hc).
    unfold decision_of, up_to_date. rewrite Hinfo, Hc, Hu, Hlast.
    destruct cd; [done|]. destruct url; [done|].
    destruct last; [reflexivity|].
    destruct Hbad as [?|[Hl | Hd]]; [done| |].
    - rewrite Hl. by destruct (Date_parse (String _ cd)).
    - by rewrite Hd. }
  rewrite Hd. simpl. split; [reflexivity|]. intros ->.
  rewrite assign_insert by (right; eauto). apply lookup_insert_eq.
Qed.

(** X16. A state file that does not parse or holds an empty ledger leads
    to the same run as a missing one: same exit status, same calls of
    [takeScreenshot], same final ledger, same counters and the same state
    file written.  A state file that cannot be opened leads to the same
    calls, ledger and counters, but the write throws: the exit status is 1
    and the file is left as it was. *)
Theorem empty_load_runs_as_missing file :
  loaded file = ∅ →
  captured (script file).2 = captured (script Missing).2 ∧
  timestamps (script file).2 = timestamps (script Missing).2 ∧
  screenshotCount (script file).2 = screenshotCount (script Missing).2 ∧
  timestampOnlyCount (script file).2 = timestampOnlyCount (script Missing).2 ∧
  (writable file = true →
   (script file).1 = (script Missing).1 ∧
   ts_file (script file).2 = ts_file (script Missing).2) ∧
  (writable file = false →
   (script file).1 = 1 ∧ (script Missing).1 = 0 ∧ ts_file (script file).2 = file).
Proof.
  intros Hload.
  destruct (script_completes JSON_parse JSON_stringify Date_parse env file projects
              token_set discovered) as (st & -> & Ht & Hk & Hn & Hf & _).
  destruct (script_completes JSON_parse JSON_stringify Date_parse env Missing projects
              token_set discovered) as (st0 & -> & Ht0 & Hk0 & Hn0 & Hf0 & _).
  simpl in *. rewrite Hload in *.
  rewrite <- Hn0 in Hn. inversion Hn as [[Hs Ho]].
  rewrite Hf, Hf0, Ht, Ht0, Hk, Hk0.
  do 4 (split; [congruence|]).
  split; intros Hw; rewrite Hw; simpl; repeat split; congruence.
Qed.

End Refresh.

(** ** The further properties on the portfolio *)

Lemma captures_overwrite_showcases_witness :
  ∃ p info,
    p ∈ portfolio_projects ∧
    getRepoInfo portfolio_graphql REPO_OWNER p = Ok info ∧
    homepageUrl info = Some "https://example.com" ∧
    fs.existsSync portfolio_root ["proj-a"; "assets"; "Showcase.png"] = true.
Proof.
  destruct (captures_overwrite_showcases
              Instance.parse_object Instance.stringify Instance.iso_time
              portfolio portfolio_file portfolio_projects eq_refl portfolio_discovered
              "https://example.com" ["proj-a"; "assets"; "Showcase.png"])
    as (p & info & Hp & Hi & Hu & _ & _ & Hex).
  - apply (bool_decide_unpack _). vm_compute. reflexivity.
  - exists p, info. auto.
Defined.

Lemma at_most_one_capture_per_project_witness :
  NoDup (map snd (captured portfolio_run.2)) ∧
  (length (captured portfolio_run.2) ≤ 6)%nat.
Proof.
  exact (at_most_one_capture_per_project
           Instance.parse_object Instance.stringify Instance.iso_time
           portfolio portfolio_file portfolio_projects
           eq_refl portfolio_distinct_names portfolio_discovered).
Defined.

Lemma entries_are_loaded_or_fetched_witness :
  is_Some (timestamps portfolio_run.2 !! "old-project") ∧
  is_Some (timestamps portfolio_run.2 !! "proj-b").
Proof.
  split.
  - apply (proj1 (entries_are_loaded_or_fetched
                    Instance.parse_object Instance.stringify Instance.iso_time
                    portfolio portfolio_file portfolio_projects
                    eq_refl portfolio_discovered "old-project")).
    vm_compute. eauto.
  - apply (proj1 (entries_are_loaded_or_fetched
                    Instance.parse_object Instance.stringify Instance.iso_time
                    portfolio portfolio_file portfolio_projects
                    eq_refl portfolio_discovered "proj-b")).
    vm_compute. eauto.
Defined.

Lemma entries_do_not_go_back_witness :
  loaded Instance.parse_object portfolio_file !! "proj-a" = Some "2024-01-01T00:00:00Z" ∧
  timestamps portfolio_run.2 !! "proj-a" = Some "2024-06-01T00:00:00Z" ∧
  (1704067200000 ≤ 1717200000000)%Z.
Proof.
  split; [vm_compute; reflexivity|]. split; [vm_compute; reflexivity|].
  apply (entries_do_not_go_back
           Instance.parse_object Instance.stringify Instance.iso_time
           portfolio portfolio_file portfolio_projects
           eq_refl portfolio_distinct_names portfolio_discovered
           "proj-a" "2024-01-01T00:00:00Z" "2024-06-01T00:00:00Z");
    vm_compute; reflexivity.
Defined.

Lemma counters_count_the_run_witness :
  screenshotCount portfolio_run.2 = length (succeeded portfolio (captured portfolio_run.2)) ∧
  (timestampOnlyCount portfolio_run.2 + length (captured portfolio_run.2) ≤ 6)%nat.
Proof.
  exact (counters_count_the_run
           Instance.parse_object Instance.stringify Instance.iso_time
           portfolio portfolio_file portfolio_projects
           eq_refl portfolio_discovered).
Defined.

Lemma console_frame_witness :
  ∃ middle,
    console portfolio_run.2
    = (Log ("Found 6 project(s): proj-a, proj-b, proj-c, proj-d, proj-e, proj-f" ++ nl)
       :: middle
       ++ [summary (screenshotCount portfolio_run.2) (timestampOnlyCount portfolio_run.2)])%list.
Proof.
  destruct (console_frame
              Instance.parse_object Instance.stringify Instance.iso_time
              portfolio portfolio_file portfolio_projects
              eq_refl portfolio_discovered) as [(middle & Hm) _].
  exists middle. exact Hm.
Defined.

Lemma invalid_date_forces_refresh_witness :
  captures_for "proj-a"
    (captured (script Instance.parse_object Instance.stringify Instance.iso_time
                 portfolio odd_ledger_file).2)
  = [("https://example.com", ["proj-a"; "assets"; "Showcase.png"])].
Proof.
  destruct (invalid_date_forces_refresh
              Instance.parse_object Instance.stringify Instance.iso_time
              portfolio portfolio_projects
              eq_refl portfolio_distinct_names portfolio_discovered
              odd_ledger_file "proj-a"
              {| homepageUrl := Some "https://example.com";
                 committedDate := Some "2024-06-01T00:00:00Z" |}
              "https://example.com" "2024-06-01T00:00:00Z" "yesterday")
    as [Hcap _].
  - apply portfolio_has. vm_compute. reflexivity.
  - vm_compute. reflexivity.
  - reflexivity.
  - reflexivity.
  - vm_compute. reflexivity.
  - right. left. vm_compute. reflexivity.
  - exact Hcap.
Defined.

Lemma empty_load_runs_as_missing_witness :
  timestamps (script Instance.parse_object Instance.stringify Instance.iso_time
                portfolio corrupt_file).2
  = timestamps (script Instance.parse_object Instance.stringify Instance.iso_time
                  portfolio Missing).2.
Proof.
  destruct (empty_load_runs_as_missing
              Instance.parse_object Instance.stringify Instance.iso_time
              portfolio portfolio_projects eq_refl portfolio_discovered corrupt_file)
    as (_ & Ht & _).
  - vm_compute. reflexivity.
  - exact Ht.
Defined.
